(** * Order-book slippage aggregation: a shallow embedding

    The notebook "Historical Orderbook Bid Ask Spread Aggregation" computes,
    with Spark window functions, the slippage of a fixed-notional market
    order against every order-book snapshot.  This file embeds cells 3, 5
    and 6 of the notebook (book construction, the two windows, the metric
    columns, the join and the first-non-null aggregation) and proves the
    properties of the depth walk.

    Numbers: Spark's [double] columns are modelled by exact rationals [Q];
    rounding, infinities and NaN are outside the model.  A column that Spark
    may leave [null] is an [option Q].  Division follows Spark's default
    (non-ANSI) rule: a zero divisor gives [null].

    The rational model carries the facts that do not hang on rounding: which
    rows are null, which row is filled first, the order of the running sums.
    Module [Double] repeats the columns of cell 6 over binary64 floats, the
    arithmetic the code runs in, and decides the facts that do hang on
    rounding: an identity between two expressions, an exact zero. *)

From Stdlib Require Import List ZArith QArith Qminmax Lia Lqa Bool Permutation Sorted.
From Stdlib Require Import Floats.
Import ListNotations.

Set Warnings "-inexact-float".
Local Open Scope Q_scope.

(** ** Nullable columns *)

Module Col.

Definition col := option Q.

Definition lit (x : Q) : col := Some x.

Definition lift2 (f : Q -> Q -> Q) (a b : col) : col :=
  match a, b with
  | Some x, Some y => Some (f x y)
  | _, _ => None
  end.

Definition add := lift2 Qplus.
Definition sub := lift2 Qminus.
Definition mul := lift2 Qmult.

(** Spark's [/]: null when the divisor is zero. *)
Definition div (a b : col) : col :=
  match a, b with
  | Some x, Some y => if Qeq_bool y 0 then None else Some (x / y)
  | _, _ => None
  end.

Definition Qlt_bool (x y : Q) : bool := negb (Qle_bool y x).

Definition lt (a b : col) : option bool :=
  match a, b with
  | Some x, Some y => Some (Qlt_bool x y)
  | _, _ => None
  end.

Definition ne (a b : col) : option bool :=
  match a, b with
  | Some x, Some y => Some (negb (Qeq_bool x y))
  | _, _ => None
  end.

(** [when(c, v)]: null unless the condition is true. *)
Definition when (c : option bool) (v : col) : col :=
  match c with
  | Some true => v
  | _ => None
  end.

(** [when(c, v).otherwise(d)]: a false or null condition takes [d]. *)
Definition when_otherwise (c : option bool) (v d : col) : col :=
  match c with
  | Some true => v
  | _ => d
  end.

(** Equality of nullable values, up to the rational they denote. *)
Definition eqv (a b : col) : Prop :=
  match a, b with
  | Some x, Some y => x == y
  | None, None => True
  | _, _ => False
  end.

Definition is_null (a : col) : bool :=
  match a with
  | None => true
  | Some _ => false
  end.

(** [first(c, ignorenulls=True)] over the values of a group. *)
Fixpoint first_ignorenulls (vs : list col) : col :=
  match vs with
  | [] => None
  | Some v :: _ => Some v
  | None :: tl => first_ignorenulls tl
  end.

(** [max(c)] and [min(c)] over the values of a partition. *)
Fixpoint max (vs : list Q) : col :=
  match vs with
  | [] => None
  | x :: tl => match max tl with
               | None => Some x
               | Some m => Some (Qmax x m)
               end
  end.

Fixpoint min (vs : list Q) : col :=
  match vs with
  | [] => None
  | x :: tl => match min tl with
               | None => Some x
               | Some m => Some (Qmin x m)
               end
  end.

(** [sum(c)] over the rows of a window frame. *)
Fixpoint sum (vs : list Q) : Q :=
  match vs with
  | [] => 0
  | x :: tl => x + sum tl
  end.

End Col.

Declare Scope col_scope.
Delimit Scope col_scope with col.
Infix "+" := Col.add : col_scope.
Infix "-" := Col.sub : col_scope.
Infix "*" := Col.mul : col_scope.
Infix "/" := Col.div : col_scope.
Infix "<?" := Col.lt : col_scope.
Infix "!=?" := Col.ne (at level 70) : col_scope.
Infix "=c=" := Col.eqv (at level 70).

Abbreviation col := Col.col.
Abbreviation lit := Col.lit.

(** ** Cell 3: the rows of [trades] and the two books *)

Record Level := mkLevel
  { exchangeTimestamp : Z;
    isBid : bool;
    price : Q;
    quantity : Q }.

Inductive Side := Bid | Ask.

Definition on_side (s : Side) (x : Level) : bool :=
  match s with
  | Bid => Bool.eqb (isBid x) true
  | Ask => Bool.eqb (isBid x) false
  end.

(** [trades.filter(f.col("isBid") == True)] and [... == False]. *)
Definition book (s : Side) (trades : list Level) : list Level :=
  filter (on_side s) trades.

(** ** Cell 5: the windows *)

(** [Window.partitionBy("exchangeTimestamp")]: the rows of one instant. *)
Definition timestampWindow (t : Z) (rows : list Level) : list Level :=
  filter (fun x => Z.eqb (exchangeTimestamp x) t) rows.

(** [orderBy(f.desc('bid_price'))] / [orderBy(f.asc('ask_price'))]:
    [before s x y] holds when [x] may stand before [y]. *)
Definition before (s : Side) (x y : Level) : bool :=
  match s with
  | Bid => Qle_bool (price y) (price x)
  | Ask => Qle_bool (price x) (price y)
  end.

Fixpoint insert (s : Side) (x : Level) (l : list Level) : list Level :=
  match l with
  | [] => [x]
  | y :: tl => if before s x y then x :: y :: tl else y :: insert s x tl
  end.

(** The ordering of a partition.  Spark leaves the order of rows with equal
    prices open; the insertion sort fixes one such order. *)
Fixpoint order_by (s : Side) (l : list Level) : list Level :=
  match l with
  | [] => []
  | x :: tl => insert s x (order_by s tl)
  end.

(** [bid_window] / [ask_window]: the ordered partition of one instant. *)
Definition window (s : Side) (t : Z) (rows : list Level) : list Level :=
  order_by s (timestampWindow t rows).

(** [rowsBetween(Window.unboundedPreceding, 0)]: the frame of row [i]. *)
Definition frame (ladder : list Level) (i : nat) : list Level :=
  firstn (S i) ladder.

(** ** Cell 6: the metric columns *)

Definition cost_basis : Q := 1000000.

(** [max("bid_price").over(timestampWindow)] and
    [min("ask_price").over(timestampWindow)]. *)
Definition order_price_1 (s : Side) (ladder : list Level) : col :=
  match s with
  | Bid => Col.max (map price ladder)
  | Ask => Col.min (map price ladder)
  end.

Definition cum_quantity (ladder : list Level) (i : nat) : Q :=
  Col.sum (map quantity (frame ladder i)).

Definition cum_cost (ladder : list Level) (i : nat) : Q :=
  Col.sum (map (fun x => quantity x * price x) (frame ladder i)).

(** The columns added to one row of a book. *)
Record Row := mkRow
  { level : Level;
    order_amount : Q;
    r_order_price_1 : col;
    desired_amount : col;
    r_cum_quantity : Q;
    r_cum_cost : Q;
    slippage : col;
    currency_slippage : col;
    dollar_slippage : col;
    percent_slippage : col }.

Section Columns.

Local Open Scope col_scope.

Definition desired_amount_col (amount : Q) (best : col) : col :=
  lit amount / best.

(** The [slippage] column of both books. *)
Definition slippage_col (amount cq cc : Q) (x : Level) : col :=
  Col.when_otherwise
    (lit amount - lit cc <? lit 0)
    ((lit amount - (lit cc - lit (quantity x) * lit (price x))) / lit (price x)
     + (lit cq - lit (quantity x)))
    (lit 0).

(** The sell columns end in [*-1], the buy columns do not. *)
Definition signed (s : Side) (v : col) : col :=
  match s with
  | Bid => v * lit (-1)
  | Ask => v
  end.

Definition currency_slippage_col (s : Side) (desired slip : col) : col :=
  Col.when (slip !=? lit 0) (signed s (desired - slip)).

Definition dollar_slippage_col (s : Side) (amount : Q) (best slip : col) : col :=
  Col.when (slip !=? lit 0) (signed s (lit amount - slip * best)).

Definition percent_slippage_col (s : Side) (desired slip : col) : col :=
  Col.when (slip !=? lit 0) (signed s (desired / slip - lit 1)).

End Columns.

Definition row_at (s : Side) (amount : Q) (ladder : list Level)
    (i : nat) (x : Level) : Row :=
  let best := order_price_1 s ladder in
  let desired := desired_amount_col amount best in
  let cq := cum_quantity ladder i in
  let cc := cum_cost ladder i in
  let slip := slippage_col amount cq cc x in
  {| level := x;
     order_amount := amount;
     r_order_price_1 := best;
     desired_amount := desired;
     r_cum_quantity := cq;
     r_cum_cost := cc;
     slippage := slip;
     currency_slippage := currency_slippage_col s desired slip;
     dollar_slippage := dollar_slippage_col s amount best slip;
     percent_slippage := percent_slippage_col s desired slip |}.

Fixpoint rows_from (s : Side) (amount : Q) (ladder : list Level)
    (i : nat) (rest : list Level) : list Row :=
  match rest with
  | [] => []
  | x :: tl => row_at s amount ladder i x :: rows_from s amount ladder (S i) tl
  end.

(** All the [withColumn] steps over one ordered partition. *)
Definition walk (s : Side) (amount : Q) (ladder : list Level) : list Row :=
  rows_from s amount ladder 0 ladder.

Definition timestamps (rows : list Level) : list Z :=
  nodup Z.eq_dec (map exchangeTimestamp rows).

(** A book with its columns: every partition of the book, walked. *)
Definition with_columns (s : Side) (amount : Q) (rows : list Level) : list Row :=
  flat_map (fun t => walk s amount (window s t rows)) (timestamps rows).

Definition bid_book (amount : Q) (trades : list Level) : list Row :=
  with_columns Bid amount (book Bid trades).

Definition ask_book (amount : Q) (trades : list Level) : list Row :=
  with_columns Ask amount (book Ask trades).

Definition row_ts (r : Row) : Z := exchangeTimestamp (level r).

(** [bid_book.join(ask_book, on='exchangeTimestamp', how='inner')]. *)
Definition join (bids asks : list Row) : list (Row * Row) :=
  flat_map
    (fun b => map (pair b) (filter (fun a => Z.eqb (row_ts a) (row_ts b)) asks))
    bids.

Record Combined := mkCombined
  { c_timestamp : Z;
    buy_currency_slippage : col;
    buy_dollar_slippage : col;
    buy_percent_slippage : col;
    sell_currency_slippage : col;
    sell_dollar_slippage : col;
    sell_percent_slippage : col }.

Definition group (t : Z) (joined : list (Row * Row)) : list (Row * Row) :=
  filter (fun p => Z.eqb (row_ts (fst p)) t) joined.

(** One group of [groupby("exchangeTimestamp").agg(first(..., ignorenulls=True), ...)]. *)
Definition agg (t : Z) (g : list (Row * Row)) : Combined :=
  let buy f := Col.first_ignorenulls (map (fun p => f (snd p)) g) in
  let sell f := Col.first_ignorenulls (map (fun p => f (fst p)) g) in
  {| c_timestamp := t;
     buy_currency_slippage := buy currency_slippage;
     buy_dollar_slippage := buy dollar_slippage;
     buy_percent_slippage := buy percent_slippage;
     sell_currency_slippage := sell currency_slippage;
     sell_dollar_slippage := sell dollar_slippage;
     sell_percent_slippage := sell percent_slippage |}.

Definition orderbook (amount : Q) (trades : list Level) : list Combined :=
  let joined := join (bid_book amount trades) (ask_book amount trades) in
  map (fun t => agg t (group t joined))
      (nodup Z.eq_dec (map (fun p => row_ts (fst p)) joined)).

(** ** Vocabulary of the specification *)

(** The sort invariant of a ladder: best price first. *)
Definition sorted (s : Side) (ladder : list Level) : Prop :=
  StronglySorted (fun x y => before s x y = true) ladder.

Definition positive (ladder : list Level) : Prop :=
  Forall (fun x => 0 < price x /\ 0 < quantity x) ladder.

(** Cumulative cost before row [i]: zero before row 0. *)
Definition cum_cost_before (ladder : list Level) (i : nat) : Q :=
  match i with
  | O => 0
  | S j => cum_cost ladder j
  end.

Definition cum_quantity_before (ladder : list Level) (i : nat) : Q :=
  match i with
  | O => 0
  | S j => cum_quantity ladder j
  end.

(** The crossing test of the specification. *)
Definition crossing (amount : Q) (ladder : list Level) (i : nat) : Prop :=
  (i < length ladder)%nat /\
  amount <= cum_cost ladder i /\ cum_cost_before ladder i < amount.

(** The specification's top of book: the price of row 0. *)
Definition spec_best_price (ladder : list Level) : col :=
  option_map price (hd_error ladder).

(** A row all of whose three metrics are null. *)
Definition no_fill (r : Row) : Prop :=
  currency_slippage r = None /\ dollar_slippage r = None /\
  percent_slippage r = None.

Definition filled (r : Row) : Prop :=
  currency_slippage r <> None /\ dollar_slippage r <> None /\
  percent_slippage r <> None.

(** The value of the first branch of the [slippage] column at row [i]. *)
Definition slippage_quantity (amount : Q) (ladder : list Level)
    (i : nat) (x : Level) : Q :=
  (amount - (cum_cost ladder i - quantity x * price x)) / price x
  + (cum_quantity ladder i - quantity x).

(** A buy metric is the deviation itself, a sell metric its opposite. *)
Definition adverse (s : Side) (v : Q) : Q :=
  match s with
  | Bid => v * -1
  | Ask => v
  end.

Definition total_cost (ladder : list Level) : Q :=
  Col.sum (map (fun x => quantity x * price x) ladder).

(** ** Sample ladders *)

Definition ladder_3 : list Level :=
  [ mkLevel 7 false 1700 400;
    mkLevel 7 false (17005 # 10) 400;
    mkLevel 7 false 1701 400 ].

Definition row_3_1 : Row :=
  row_at Ask cost_basis ladder_3 1 (mkLevel 7 false (17005 # 10) 400).

Definition ladder_top : list Level :=
  [ mkLevel 7 true 1700 600; mkLevel 7 true 1699 5 ].


Definition trades_malformed : list Level :=
  [ mkLevel 7 true (-5) 0;
    mkLevel 7 true 1000 2000;
    mkLevel 7 false 1001 2000 ].

Definition trades_thin : list Level :=
  [ mkLevel 7 true 1000 1; mkLevel 7 false 1001 2000 ].

(** ** The six aggregated columns, by side and kind *)

Inductive Metric := Currency | Dollar | Percent.

Definition row_metric (m : Metric) (r : Row) : col :=
  match m with
  | Currency => currency_slippage r
  | Dollar => dollar_slippage r
  | Percent => percent_slippage r
  end.

(** The sell columns come from the bid book, the buy columns from the ask
    book. *)
Definition combined_metric (s : Side) (m : Metric) (c : Combined) : col :=
  match s, m with
  | Bid, Currency => sell_currency_slippage c
  | Bid, Dollar => sell_dollar_slippage c
  | Bid, Percent => sell_percent_slippage c
  | Ask, Currency => buy_currency_slippage c
  | Ask, Dollar => buy_dollar_slippage c
  | Ask, Percent => buy_percent_slippage c
  end.

(** The half of a joined row that belongs to a side. *)
Definition pick (s : Side) (p : Row * Row) : Row :=
  match s with
  | Bid => fst p
  | Ask => snd p
  end.

Definition trades_deep : list Level :=
  [ mkLevel 7 true 1000 2000; mkLevel 7 false 1001 2000;
    mkLevel 7 true 999 5; mkLevel 8 true 1000 1 ].

(** ** Cell 6 in the code's own arithmetic *)

Module Double.

Definition dcol := option float.

Definition lit (x : float) : dcol := Some x.

Definition lift2 (f : float -> float -> float) (a b : dcol) : dcol :=
  match a, b with
  | Some x, Some y => Some (f x y)
  | _, _ => None
  end.

Definition add := lift2 PrimFloat.add.
Definition sub := lift2 PrimFloat.sub.
Definition mul := lift2 PrimFloat.mul.

(** Spark's [/]: null when the divisor is zero. *)
Definition div (a b : dcol) : dcol :=
  match a, b with
  | Some x, Some y =>
      if PrimFloat.eqb y 0%float then None else Some (PrimFloat.div x y)
  | _, _ => None
  end.

Definition lt (a b : dcol) : option bool :=
  match a, b with
  | Some x, Some y => Some (PrimFloat.ltb x y)
  | _, _ => None
  end.

Definition ne (a b : dcol) : option bool :=
  match a, b with
  | Some x, Some y => Some (negb (PrimFloat.eqb x y))
  | _, _ => None
  end.

Definition when (c : option bool) (v : dcol) : dcol :=
  match c with
  | Some true => v
  | _ => None
  end.

Definition when_otherwise (c : option bool) (v d : dcol) : dcol :=
  match c with
  | Some true => v
  | _ => d
  end.

Fixpoint max (vs : list float) : dcol :=
  match vs with
  | [] => None
  | x :: tl => match max tl with
               | None => Some x
               | Some m => Some (if PrimFloat.ltb x m then m else x)
               end
  end.

Fixpoint min (vs : list float) : dcol :=
  match vs with
  | [] => None
  | x :: tl => match min tl with
               | None => Some x
               | Some m => Some (if PrimFloat.ltb m x then m else x)
               end
  end.

(** [sum(c)] over a frame, added up in the order of the window. *)
Definition sum (vs : list float) : float :=
  fold_left PrimFloat.add vs 0%float.

(** One level of one ladder: its price and its quantity. *)
Record DLevel := mkDLevel
  { d_price : float;
    d_quantity : float }.

Definition order_price_1 (s : Side) (ladder : list DLevel) : dcol :=
  match s with
  | Bid => max (map d_price ladder)
  | Ask => min (map d_price ladder)
  end.

Definition cum_quantity (ladder : list DLevel) (i : nat) : float :=
  sum (map d_quantity (firstn (S i) ladder)).

Definition cum_cost (ladder : list DLevel) (i : nat) : float :=
  sum (map (fun x => PrimFloat.mul (d_quantity x) (d_price x))
           (firstn (S i) ladder)).

Record DRow := mkDRow
  { d_level : DLevel;
    d_order_price_1 : dcol;
    d_desired_amount : dcol;
    d_cum_quantity : float;
    d_cum_cost : float;
    d_slippage : dcol;
    d_currency_slippage : dcol;
    d_dollar_slippage : dcol;
    d_percent_slippage : dcol }.

Definition desired_amount_col (amount : float) (best : dcol) : dcol :=
  div (lit amount) best.

Definition slippage_col (amount cq cc : float) (x : DLevel) : dcol :=
  when_otherwise
    (lt (sub (lit amount) (lit cc)) (lit 0%float))
    (add (div (sub (lit amount)
                   (sub (lit cc) (mul (lit (d_quantity x)) (lit (d_price x)))))
              (lit (d_price x)))
         (sub (lit cq) (lit (d_quantity x))))
    (lit 0%float).

Definition signed (s : Side) (v : dcol) : dcol :=
  match s with
  | Bid => mul v (lit (-1)%float)
  | Ask => v
  end.

Definition currency_slippage_col (s : Side) (desired slip : dcol) : dcol :=
  when (ne slip (lit 0%float)) (signed s (sub desired slip)).

Definition dollar_slippage_col (s : Side) (amount : float) (best slip : dcol)
    : dcol :=
  when (ne slip (lit 0%float)) (signed s (sub (lit amount) (mul slip best))).

Definition percent_slippage_col (s : Side) (desired slip : dcol) : dcol :=
  when (ne slip (lit 0%float)) (signed s (sub (div desired slip) (lit 1%float))).

Definition row_at (s : Side) (amount : float) (ladder : list DLevel)
    (i : nat) (x : DLevel) : DRow :=
  let best := order_price_1 s ladder in
  let desired := desired_amount_col amount best in
  let cq := cum_quantity ladder i in
  let cc := cum_cost ladder i in
  let slip := slippage_col amount cq cc x in
  {| d_level := x;
     d_order_price_1 := best;
     d_desired_amount := desired;
     d_cum_quantity := cq;
     d_cum_cost := cc;
     d_slippage := slip;
     d_currency_slippage := currency_slippage_col s desired slip;
     d_dollar_slippage := dollar_slippage_col s amount best slip;
     d_percent_slippage := percent_slippage_col s desired slip |}.

Fixpoint rows_from (s : Side) (amount : float) (ladder : list DLevel)
    (i : nat) (rest : list DLevel) : list DRow :=
  match rest with
  | [] => []
  | x :: tl => row_at s amount ladder i x :: rows_from s amount ladder (S i) tl
  end.

Definition walk (s : Side) (amount : float) (ladder : list DLevel) : list DRow :=
  rows_from s amount ladder 0 ladder.

Definition cost_basis : float := 1000000%float.

End Double.

(** ** Cell 3 with a nullable [isBid] *)

(** A row of [trades] as it is read: [isBid] may be null.  [Level] above is
    such a row once its [isBid] is known. *)
Record RawLevel := mkRawLevel
  { raw_isBid : option bool;
    raw_timestamp : Z;
    raw_price : Q;
    raw_quantity : Q }.

(** [f.col("isBid") == True] and [== False]: null on a null [isBid], and a
    filter keeps a row only where its condition is true. *)
Definition raw_on_side (s : Side) (x : RawLevel) : bool :=
  match raw_isBid x with
  | Some b => match s with
              | Bid => Bool.eqb b true
              | Ask => Bool.eqb b false
              end
  | None => false
  end.

Definition raw_book (s : Side) (trades : list RawLevel) : list RawLevel :=
  filter (raw_on_side s) trades.

Definition raw_null (x : RawLevel) : bool :=
  match raw_isBid x with
  | Some _ => false
  | None => true
  end.

(** The rows whose [isBid] is known, as levels. *)
Definition levels_of (trades : list RawLevel) : list Level :=
  flat_map
    (fun x => match raw_isBid x with
              | Some b => [mkLevel (raw_timestamp x) b (raw_price x) (raw_quantity x)]
              | None => []
              end)
    trades.

Definition raw_trades_sample : list RawLevel :=
  [ mkRawLevel (Some true) 7 1000 2000;
    mkRawLevel None 7 1001 5;
    mkRawLevel (Some false) 7 1002 2000 ].

(** The three-level ask ladder and a one-level ask ladder, in doubles. *)
Definition d_ladder_3 : list Double.DLevel :=
  [ Double.mkDLevel 1700%float 400%float;
    Double.mkDLevel 1700.5%float 400%float;
    Double.mkDLevel 1701%float 400%float ].

Definition d_ladder_overfill : list Double.DLevel :=
  [ Double.mkDLevel 1729.32%float 1000%float ].

(** An ask ladder whose best price is 0. *)
Definition ladder_free : list Level :=
  [ mkLevel 7 false 0 1; mkLevel 7 false 1 2000000 ].

(** ** Column arithmetic *)

Lemma Qlt_bool_iff (x y : Q) : Col.Qlt_bool x y = true <-> x < y.
Proof.
  unfold Col.Qlt_bool. rewrite negb_true_iff.
  split; intro H.
  - apply Qnot_le_lt. intro Hle. apply Qle_bool_iff in Hle. congruence.
  - destruct (Qle_bool y x) eqn:E; [|reflexivity].
    apply Qle_bool_iff in E. exfalso. apply (Qlt_not_le _ _ H E).
Qed.

Lemma Qlt_bool_false (x y : Q) : y <= x -> Col.Qlt_bool x y = false.
Proof.
  intro H. destruct (Col.Qlt_bool x y) eqn:E; [|reflexivity].
  apply Qlt_bool_iff in E. exfalso. apply (Qlt_not_le _ _ E H).
Qed.

Lemma Qeq_bool_false (x y : Q) : ~ x == y -> Qeq_bool x y = false.
Proof.
  intro H. destruct (Qeq_bool x y) eqn:E; [|reflexivity].
  apply Qeq_bool_iff in E. contradiction.
Qed.

(** A row whose cumulative cost does not exceed the notional takes the
    [otherwise(0)] branch. *)
Lemma slippage_col_le (amount cq cc : Q) (x : Level) :
  cc <= amount -> slippage_col amount cq cc x = Some 0.
Proof.
  intro H. unfold slippage_col. cbn.
  rewrite Qlt_bool_false; [reflexivity | lra].
Qed.

(** A row whose cumulative cost exceeds the notional takes the first branch. *)
Lemma slippage_col_gt (amount cq cc : Q) (x : Level) :
  amount < cc -> ~ price x == 0 ->
  slippage_col amount cq cc x =
  Some ((amount - (cc - quantity x * price x)) / price x + (cq - quantity x)).
Proof.
  intros H Hp. unfold slippage_col. cbn.
  assert (E : Col.Qlt_bool (amount - cc) 0 = true) by (apply Qlt_bool_iff; lra).
  rewrite E. cbn. rewrite (Qeq_bool_false _ _ Hp). reflexivity.
Qed.

Lemma metrics_null (s : Side) (amount : Q) (best desired : col) (v : Q) :
  v == 0 ->
  currency_slippage_col s desired (Some v) = None /\
  dollar_slippage_col s amount best (Some v) = None /\
  percent_slippage_col s desired (Some v) = None.
Proof.
  intro H.
  unfold currency_slippage_col, dollar_slippage_col, percent_slippage_col.
  cbn. apply Qeq_bool_iff in H. rewrite H. cbn. auto.
Qed.

Lemma metrics_some (s : Side) (amount b v : Q) :
  ~ v == 0 -> ~ b == 0 ->
  let desired := desired_amount_col amount (Some b) in
  desired = Some (amount / b) /\
  currency_slippage_col s desired (Some v) = signed s (Some (amount / b - v)) /\
  dollar_slippage_col s amount (Some b) (Some v) = signed s (Some (amount - v * b)) /\
  percent_slippage_col s desired (Some v) = signed s (Some (amount / b / v - 1)).
Proof.
  intros Hv Hb. cbn.
  unfold desired_amount_col, currency_slippage_col, dollar_slippage_col,
    percent_slippage_col.
  cbn. rewrite (Qeq_bool_false _ _ Hb), (Qeq_bool_false _ _ Hv). cbn.
  rewrite (Qeq_bool_false _ _ Hv). auto.
Qed.

Lemma signed_some (s : Side) (v : Q) :
  signed s (Some v) = Some (match s with Bid => v * -1 | Ask => v end).
Proof. destruct s; reflexivity. Qed.

(** ** Window frames and running sums *)

Lemma sum_firstn_S (f : Level -> Q) (l : list Level) :
  forall i x, nth_error l i = Some x ->
  Col.sum (map f (firstn (S i) l)) == Col.sum (map f (firstn i l)) + f x.
Proof.
  induction l as [|y tl IH]; intros i x H.
  - destruct i; discriminate.
  - destruct i as [|i].
    + injection H as ->. cbn. lra.
    + cbn in H. specialize (IH i x H).
      change (f y + Col.sum (map f (firstn (S i) tl))
              == f y + Col.sum (map f (firstn i tl)) + f x).
      rewrite IH. lra.
Qed.

Lemma sum_firstn_nonneg (f : Level -> Q) (l : list Level) :
  Forall (fun x => 0 < f x) l ->
  forall i, 0 <= Col.sum (map f (firstn i l)).
Proof.
  induction 1 as [|y tl Hy _ IH]; intros [|i]; cbn; try lra.
  specialize (IH i). lra.
Qed.

Lemma sum_firstn_lt (f : Level -> Q) (l : list Level) :
  Forall (fun x => 0 < f x) l ->
  forall i j, (i < j)%nat -> (j <= length l)%nat ->
  Col.sum (map f (firstn i l)) < Col.sum (map f (firstn j l)).
Proof.
  induction 1 as [|y tl Hy Htl IH]; intros i j Hij Hj.
  - cbn in Hj. lia.
  - destruct j as [|j]; [lia|]. cbn in Hj.
    destruct i as [|i]; cbn.
    + pose proof (sum_firstn_nonneg f tl Htl j). lra.
    + assert (Col.sum (map f (firstn i tl)) < Col.sum (map f (firstn j tl)))
        by (apply IH; lia).
      lra.
Qed.

Lemma positive_quantity (ladder : list Level) :
  positive ladder -> Forall (fun x => 0 < quantity x) ladder.
Proof.
  apply Forall_impl. intros x [_ H]. exact H.
Qed.

Lemma positive_cost (ladder : list Level) :
  positive ladder -> Forall (fun x => 0 < quantity x * price x) ladder.
Proof.
  apply Forall_impl. intros x [Hp Hq]. nra.
Qed.

Lemma positive_nth (ladder : list Level) (i : nat) (x : Level) :
  positive ladder -> nth_error ladder i = Some x ->
  0 < price x /\ 0 < quantity x.
Proof.
  intros H Hn. unfold positive in H. rewrite Forall_forall in H.
  apply H. eapply nth_error_In. exact Hn.
Qed.

Lemma cum_cost_before_sum (ladder : list Level) (i : nat) :
  cum_cost_before ladder i
  = Col.sum (map (fun x => quantity x * price x) (firstn i ladder)).
Proof. destruct i; reflexivity. Qed.

Lemma cum_quantity_before_sum (ladder : list Level) (i : nat) :
  cum_quantity_before ladder i = Col.sum (map quantity (firstn i ladder)).
Proof. destruct i; reflexivity. Qed.

Lemma cum_cost_step (ladder : list Level) (i : nat) (x : Level) :
  nth_error ladder i = Some x ->
  cum_cost ladder i == cum_cost_before ladder i + quantity x * price x.
Proof.
  intro H. rewrite cum_cost_before_sum. unfold cum_cost, frame.
  apply (sum_firstn_S (fun x => quantity x * price x)). exact H.
Qed.

Lemma cum_quantity_step (ladder : list Level) (i : nat) (x : Level) :
  nth_error ladder i = Some x ->
  cum_quantity ladder i == cum_quantity_before ladder i + quantity x.
Proof.
  intro H. rewrite cum_quantity_before_sum. unfold cum_quantity, frame.
  apply (sum_firstn_S quantity). exact H.
Qed.

(** ** Rows of a walked ladder *)

Lemma nth_error_rows_from (s : Side) (amount : Q) (ladder rest : list Level) :
  forall k i,
  nth_error (rows_from s amount ladder k rest) i
  = option_map (row_at s amount ladder (k + i)) (nth_error rest i).
Proof.
  induction rest as [|x tl IH]; intros k i.
  - destruct i; reflexivity.
  - destruct i as [|i]; cbn.
    + rewrite Nat.add_0_r. reflexivity.
    + rewrite IH. rewrite Nat.add_succ_r. reflexivity.
Qed.

Lemma nth_error_walk (s : Side) (amount : Q) (ladder : list Level) (i : nat) :
  nth_error (walk s amount ladder) i
  = option_map (row_at s amount ladder i) (nth_error ladder i).
Proof. unfold walk. rewrite nth_error_rows_from. reflexivity. Qed.

Lemma walk_row (s : Side) (amount : Q) (ladder : list Level) (i : nat) (r : Row) :
  nth_error (walk s amount ladder) i = Some r ->
  exists x, nth_error ladder i = Some x /\ r = row_at s amount ladder i x.
Proof.
  rewrite nth_error_walk. destruct (nth_error ladder i) as [x|]; cbn; intro H.
  - exists x. split; congruence.
  - discriminate.
Qed.

(** ** The top-of-book column *)

Lemma max_bound (b : Q) (l : list Q) :
  Forall (fun y => y <= b) l -> forall m, Col.max l = Some m -> m <= b.
Proof.
  induction 1 as [|y tl Hy _ IH]; intros m Hm; [discriminate|].
  cbn in Hm. destruct (Col.max tl) as [m'|].
  - injection Hm as <-. apply Q.max_lub; [exact Hy | apply IH; reflexivity].
  - injection Hm as <-. exact Hy.
Qed.

Lemma min_bound (b : Q) (l : list Q) :
  Forall (fun y => b <= y) l -> forall m, Col.min l = Some m -> b <= m.
Proof.
  induction 1 as [|y tl Hy _ IH]; intros m Hm; [discriminate|].
  cbn in Hm. destruct (Col.min tl) as [m'|].
  - injection Hm as <-. apply Q.min_glb; [exact Hy | apply IH; reflexivity].
  - injection Hm as <-. exact Hy.
Qed.

Lemma max_head (x0 : Q) (rest : list Q) :
  Forall (fun y => y <= x0) rest ->
  exists m, Col.max (x0 :: rest) = Some m /\ m == x0.
Proof.
  intro H. cbn. destruct (Col.max rest) as [m'|] eqn:E.
  - exists (Qmax x0 m'). split; [reflexivity|].
    apply Q.max_l. apply (max_bound x0 rest H). exact E.
  - exists x0. split; reflexivity.
Qed.

Lemma min_head (x0 : Q) (rest : list Q) :
  Forall (fun y => x0 <= y) rest ->
  exists m, Col.min (x0 :: rest) = Some m /\ m == x0.
Proof.
  intro H. cbn. destruct (Col.min rest) as [m'|] eqn:E.
  - exists (Qmin x0 m'). split; [reflexivity|].
    apply Q.min_l. apply (min_bound x0 rest H). exact E.
  - exists x0. split; reflexivity.
Qed.

(** On a ladder that satisfies the sort invariant the window extremum is the
    price of row 0. *)
Lemma order_price_1_sorted (s : Side) (x0 : Level) (rest : list Level) :
  sorted s (x0 :: rest) ->
  exists b, order_price_1 s (x0 :: rest) = Some b /\ b == price x0.
Proof.
  intro H. apply StronglySorted_inv in H. destruct H as [_ H].
  destruct s; cbn [order_price_1 map].
  - apply max_head. rewrite Forall_map. revert H. apply Forall_impl.
    intros y Hy. cbn in Hy. apply Qle_bool_iff. exact Hy.
  - apply min_head. rewrite Forall_map. revert H. apply Forall_impl.
    intros y Hy. cbn in Hy. apply Qle_bool_iff. exact Hy.
Qed.

Lemma max_positive (l : list Q) :
  Forall (fun y => 0 < y) l -> forall m, Col.max l = Some m -> 0 < m.
Proof.
  induction 1 as [|y tl Hy _ IH]; intros m Hm; [discriminate|].
  cbn in Hm. destruct (Col.max tl) as [m'|]; injection Hm as <-.
  - apply Qlt_le_trans with y; [exact Hy | apply Q.le_max_l].
  - exact Hy.
Qed.

Lemma min_positive (l : list Q) :
  Forall (fun y => 0 < y) l -> forall m, Col.min l = Some m -> 0 < m.
Proof.
  induction 1 as [|y tl Hy _ IH]; intros m Hm; [discriminate|].
  cbn in Hm. destruct (Col.min tl) as [m'|] eqn:E; injection Hm as <-.
  - apply Q.min_glb_lt; [exact Hy | apply IH; reflexivity].
  - exact Hy.
Qed.

Lemma max_nonempty (l : list Q) : l <> [] -> exists m, Col.max l = Some m.
Proof.
  destruct l as [|x tl]; [congruence|]. intros _. cbn.
  destruct (Col.max tl); eauto.
Qed.

Lemma min_nonempty (l : list Q) : l <> [] -> exists m, Col.min l = Some m.
Proof.
  destruct l as [|x tl]; [congruence|]. intros _. cbn.
  destruct (Col.min tl); eauto.
Qed.

(** Every row of a ladder of positive levels sees a positive top of book. *)
Lemma order_price_1_positive (s : Side) (ladder : list Level) :
  positive ladder -> ladder <> [] ->
  exists b, order_price_1 s ladder = Some b /\ 0 < b.
Proof.
  intros Hpos Hne.
  assert (Hp : Forall (fun y => 0 < y) (map price ladder)).
  { rewrite Forall_map. revert Hpos. apply Forall_impl. intros x [H _]. exact H. }
  assert (Hn : map price ladder <> []).
  { destruct ladder; [congruence | discriminate]. }
  destruct s; cbn [order_price_1].
  - destruct (max_nonempty _ Hn) as [m Hm]. exists m. split; [exact Hm|].
    eapply max_positive; eauto.
  - destruct (min_nonempty _ Hn) as [m Hm]. exists m. split; [exact Hm|].
    eapply min_positive; eauto.
Qed.

(** ** One row of a walked ladder *)

Lemma slippage_quantity_before (amount : Q) (ladder : list Level)
    (i : nat) (x : Level) :
  nth_error ladder i = Some x -> ~ price x == 0 ->
  slippage_quantity amount ladder i x
  == cum_quantity_before ladder i
     + (amount - cum_cost_before ladder i) / price x.
Proof.
  intros Hn Hp. unfold slippage_quantity.
  rewrite (cum_cost_step ladder i x Hn), (cum_quantity_step ladder i x Hn).
  field. exact Hp.
Qed.

(** Rows up to and including an exact match: [otherwise(0)], null metrics. *)
Lemma row_at_le (s : Side) (amount : Q) (ladder : list Level)
    (i : nat) (x : Level) :
  cum_cost ladder i <= amount ->
  slippage (row_at s amount ladder i x) = Some 0 /\
  no_fill (row_at s amount ladder i x).
Proof.
  intro H. unfold no_fill, row_at.
  cbn [slippage currency_slippage dollar_slippage percent_slippage].
  rewrite (slippage_col_le _ _ _ _ H). split; [reflexivity|].
  apply metrics_null. reflexivity.
Qed.

(** Rows past the notional: the first branch, and null metrics exactly when
    its value is zero. *)
Lemma row_at_gt (s : Side) (amount : Q) (ladder : list Level)
    (i : nat) (x : Level) :
  amount < cum_cost ladder i -> ~ price x == 0 ->
  slippage (row_at s amount ladder i x)
  = Some (slippage_quantity amount ladder i x).
Proof.
  intros H Hp. unfold row_at. cbn [slippage].
  apply slippage_col_gt; assumption.
Qed.

Lemma row_at_metrics (s : Side) (amount : Q) (ladder : list Level)
    (i : nat) (x : Level) (b v : Q) :
  order_price_1 s ladder = Some b -> ~ b == 0 ->
  slippage (row_at s amount ladder i x) = Some v -> ~ v == 0 ->
  let r := row_at s amount ladder i x in
  desired_amount r = Some (amount / b) /\
  currency_slippage r = Some (adverse s (amount / b - v)) /\
  dollar_slippage r = Some (adverse s (amount - v * b)) /\
  percent_slippage r = Some (adverse s (amount / b / v - 1)).
Proof.
  intros Hb Hb0 Hv Hv0. unfold row_at in *.
  cbn [slippage desired_amount currency_slippage dollar_slippage
       percent_slippage] in *.
  rewrite Hv, Hb.
  destruct (metrics_some s amount b v Hv0 Hb0) as (Hd & Hc & Hdl & Hpc).
  cbn zeta in Hc, Hpc, Hd.
  rewrite Hc, Hdl, Hpc, !signed_some. auto.
Qed.

Lemma row_at_null (s : Side) (amount : Q) (ladder : list Level)
    (i : nat) (x : Level) (v : Q) :
  slippage (row_at s amount ladder i x) = Some v -> v == 0 ->
  no_fill (row_at s amount ladder i x).
Proof.
  intros Hv Hv0. unfold no_fill, row_at in *.
  cbn [slippage currency_slippage dollar_slippage percent_slippage] in *.
  rewrite Hv. apply metrics_null. exact Hv0.
Qed.

(** At the first row whose cumulative cost exceeds a positive notional the
    slippage quantity is positive. *)
Lemma slippage_quantity_positive (amount : Q) (ladder : list Level)
    (i : nat) (x : Level) :
  positive ladder -> 0 < amount ->
  nth_error ladder i = Some x ->
  cum_cost_before ladder i <= amount ->
  0 < slippage_quantity amount ladder i x.
Proof.
  intros Hpos Ha Hn Hb.
  destruct (positive_nth _ _ _ Hpos Hn) as [Hp Hq].
  rewrite (slippage_quantity_before amount ladder i x Hn) by lra.
  pose proof (sum_firstn_nonneg quantity ladder (positive_quantity _ Hpos) i) as Hcq.
  rewrite <- cum_quantity_before_sum in Hcq.
  destruct i as [|i].
  - cbn [cum_quantity_before cum_cost_before] in *.
    assert (0 < (amount - 0) / price x).
    { apply Qlt_shift_div_l; lra. }
    lra.
  - assert (Hlt : 0 < cum_quantity_before ladder (S i)).
    { rewrite cum_quantity_before_sum.
      apply Qle_lt_trans with (Col.sum (map quantity (firstn 0 ladder))).
      - cbn. lra.
      - apply sum_firstn_lt; [apply positive_quantity; exact Hpos | lia |].
        apply Nat.lt_le_incl. apply nth_error_Some. congruence. }
    assert (0 <= (amount - cum_cost_before ladder (S i)) / price x).
    { apply Qle_shift_div_l; lra. }
    lra.
Qed.

(** ** Running sums along the walk *)

(** C8.  On a ladder whose levels all have a positive price and a positive
    quantity, [cum_quantity] and [cum_cost] are non-decreasing along walk
    order, and in fact strictly increasing: a later row carries strictly
    larger running sums than an earlier one. *)
Theorem cum_sums_increasing (s : Side) (amount : Q) (ladder : list Level)
    (i j : nat) (ri rj : Row) :
  positive ladder -> (i < j)%nat ->
  nth_error (walk s amount ladder) i = Some ri ->
  nth_error (walk s amount ladder) j = Some rj ->
  (r_cum_quantity ri <= r_cum_quantity rj /\ r_cum_cost ri <= r_cum_cost rj) /\
  (r_cum_quantity ri < r_cum_quantity rj /\ r_cum_cost ri < r_cum_cost rj).
Proof.
  intros Hpos Hij Hi Hj.
  destruct (walk_row _ _ _ _ _ Hi) as (xi & _ & ->).
  destruct (walk_row _ _ _ _ _ Hj) as (xj & Hxj & ->).
  assert (Hlen : (S j <= length ladder)%nat).
  { apply nth_error_Some. congruence. }
  assert (Hq : cum_quantity ladder i < cum_quantity ladder j).
  { unfold cum_quantity, frame.
    apply sum_firstn_lt; [apply positive_quantity; exact Hpos | lia | exact Hlen]. }
  assert (Hc : cum_cost ladder i < cum_cost ladder j).
  { unfold cum_cost, frame.
    apply sum_firstn_lt; [apply positive_cost; exact Hpos | lia | exact Hlen]. }
  cbn [row_at r_cum_quantity r_cum_cost].
  repeat split; try assumption; apply Qlt_le_weak; assumption.
Qed.

Lemma positive_ladder_3 : positive ladder_3.
Proof.
  unfold positive, ladder_3.
  repeat constructor; cbn; reflexivity.
Qed.

Lemma sorted_ladder_3 : sorted Ask ladder_3.
Proof.
  unfold sorted, ladder_3.
  repeat (constructor; try reflexivity).
Qed.

Lemma cum_sums_increasing_witness :
  exists ri rj,
    nth_error (walk Ask cost_basis ladder_3) 0 = Some ri /\
    nth_error (walk Ask cost_basis ladder_3) 2 = Some rj /\
    r_cum_quantity ri < r_cum_quantity rj /\ r_cum_cost ri < r_cum_cost rj.
Proof.
  eexists. eexists.
  split; [reflexivity|]. split; [reflexivity|].
  apply (cum_sums_increasing Ask cost_basis ladder_3 0 2).
  - exact positive_ladder_3.
  - lia.
  - reflexivity.
  - reflexivity.
Defined.

(** ** Top of book *)

(** C7.  On a ladder that satisfies the sort invariant (bids by descending
    price, asks by ascending price) the code's top-of-book column, the
    maximum bid price (minimum ask price) over the instant, is the price of
    row 0, the specification's [best_price]. *)
Theorem best_price_refines (s : Side) (ladder : list Level) :
  sorted s ladder ->
  order_price_1 s ladder =c= spec_best_price ladder.
Proof.
  intro H. destruct ladder as [|x0 rest].
  - destruct s; exact I.
  - destruct (order_price_1_sorted s x0 rest H) as (b & Hb & Hbe).
    rewrite Hb. cbn. exact Hbe.
Qed.

Lemma best_price_refines_witness :
  sorted Ask ladder_3 /\
  order_price_1 Ask ladder_3 =c= spec_best_price ladder_3.
Proof.
  split.
  - exact sorted_ladder_3.
  - apply (best_price_refines Ask ladder_3). exact sorted_ladder_3.
Defined.

(** ** Relations between the three metrics *)

Lemma currency_some_inv (s : Side) (desired slip : col) (c : Q) :
  currency_slippage_col s desired slip = Some c ->
  exists v d, slip = Some v /\ ~ v == 0 /\ desired = Some d.
Proof.
  unfold currency_slippage_col. intro H.
  destruct slip as [v|]; [|discriminate].
  cbn in H. destruct (Qeq_bool v 0) eqn:E; [discriminate|]. cbn in H.
  destruct desired as [d|]; [|destruct s; discriminate].
  exists v, d. repeat split. apply Qeq_bool_neq. exact E.
Qed.

Lemma desired_some_inv (amount : Q) (best : col) (d : Q) :
  desired_amount_col amount best = Some d ->
  exists b, best = Some b /\ ~ b == 0.
Proof.
  unfold desired_amount_col. destruct best as [b|]; [|discriminate].
  cbn. destruct (Qeq_bool b 0) eqn:E; [discriminate|]. intros _.
  exists b. split; [reflexivity|]. apply Qeq_bool_neq. exact E.
Qed.

(** C9, as the code has it.  At a row whose slippage quantity Q is not zero
    the dollar slippage is present and is the code's expression of the
    notional, Q and the top-of-book price.  When the top-of-book price is
    not zero the currency and percent slippage are present too, each its
    own expression of the notional, the top-of-book price and Q; when it is
    zero they are null.  On both sides the sell expressions are the buy
    expressions times -1. *)
Theorem metrics_determined (s : Side) (amount : Q) (ladder : list Level)
    (i : nat) (r : Row) (v : Q) :
  nth_error (walk s amount ladder) i = Some r ->
  slippage r = Some v -> ~ v == 0 ->
  exists b,
    r_order_price_1 r = Some b /\
    dollar_slippage r = Some (adverse s (amount - v * b)) /\
    (b == 0 -> currency_slippage r = None /\ percent_slippage r = None) /\
    (~ b == 0 ->
     currency_slippage r = Some (adverse s (amount / b - v)) /\
     percent_slippage r = Some (adverse s (amount / b / v - 1))).
Proof.
  intros Hr Hv Hv0.
  destruct (walk_row _ _ _ _ _ Hr) as (x & Hn & ->).
  assert (Hne : map price ladder <> []).
  { destruct ladder; [destruct i; discriminate | discriminate]. }
  assert (Hb : exists b, order_price_1 s ladder = Some b).
  { destruct s; cbn [order_price_1];
      [apply max_nonempty | apply min_nonempty]; exact Hne. }
  destruct Hb as [b Hb]. exists b.
  split; [exact Hb|]. split.
  - unfold row_at in *. cbn [slippage dollar_slippage] in *.
    rewrite Hv, Hb. unfold dollar_slippage_col. cbn.
    rewrite (Qeq_bool_false _ _ Hv0). cbn. destruct s; reflexivity.
  - split.
    + intro Hz. unfold row_at in *.
      cbn [slippage currency_slippage percent_slippage] in *.
      rewrite Hv, Hb.
      unfold currency_slippage_col, percent_slippage_col, desired_amount_col.
      cbn. apply Qeq_bool_iff in Hz. rewrite Hz.
      rewrite (Qeq_bool_false _ _ Hv0). cbn. destruct s; auto.
    + intro Hb0.
      destruct (row_at_metrics s amount ladder i x b v Hb Hb0 Hv Hv0)
        as (_ & Hcur & _ & Hpct).
      split; assumption.
Qed.

Lemma metrics_determined_witness :
  exists v,
    slippage row_3_1 = Some v /\ ~ v == 0 /\
    exists b,
      r_order_price_1 row_3_1 = Some b /\
      dollar_slippage row_3_1 = Some (adverse Ask (cost_basis - v * b)) /\
      (b == 0 ->
       currency_slippage row_3_1 = None /\ percent_slippage row_3_1 = None) /\
      (~ b == 0 ->
       currency_slippage row_3_1 = Some (adverse Ask (cost_basis / b - v)) /\
       percent_slippage row_3_1 = Some (adverse Ask (cost_basis / b / v - 1))).
Proof.
  eexists.
  assert (Hv : slippage row_3_1
               = Some (slippage_quantity cost_basis ladder_3 1
                         (mkLevel 7 false (17005 # 10) 400))) by reflexivity.
  assert (Hv0 : ~ slippage_quantity cost_basis ladder_3 1
                    (mkLevel 7 false (17005 # 10) 400) == 0).
  { intro H. vm_compute in H. discriminate H. }
  split; [exact Hv|]. split; [exact Hv0|].
  apply (metrics_determined Ask cost_basis ladder_3 1 row_3_1 _ eq_refl Hv Hv0).
Defined.

(** Between the exact values of the three expressions
    [dollar = best_price * currency] and [percent = currency / Q]. *)
Lemma metrics_exact_relations (s : Side) (amount b v : Q) :
  ~ b == 0 -> ~ v == 0 ->
  adverse s (amount - v * b) == b * adverse s (amount / b - v) /\
  adverse s (amount / b / v - 1) == adverse s (amount / b - v) / v.
Proof.
  intros Hb Hv. split; destruct s; cbn [adverse]; field; auto.
Qed.

(** C9, as stated, fails on the code in two ways.  In the code's doubles,
    at row 1 of the three-level ask ladder, the dollar slippage is not
    [best_price * currency_slippage] and the percent slippage is not
    [currency_slippage / Q]: they differ in their last digits.  And on an
    ask ladder whose best price is 0, row 1 has a non-zero Q and a dollar
    slippage while its currency slippage is null. *)
Lemma metrics_identity_fails :
  (exists r b v c d p,
     nth_error (Double.walk Ask Double.cost_basis d_ladder_3) 1 = Some r /\
     Double.d_order_price_1 r = Some b /\
     Double.d_slippage r = Some v /\ PrimFloat.eqb v 0 = false /\
     Double.d_currency_slippage r = Some c /\
     Double.d_dollar_slippage r = Some d /\
     Double.d_percent_slippage r = Some p /\
     PrimFloat.eqb d (PrimFloat.mul b c) = false /\
     PrimFloat.eqb p (PrimFloat.div c v) = false) /\
  (exists r v d,
     nth_error (walk Ask cost_basis ladder_free) 1 = Some r /\
     slippage r = Some v /\ ~ v == 0 /\
     dollar_slippage r = Some d /\
     currency_slippage r = None /\ percent_slippage r = None).
Proof.
  split.
  - do 6 eexists.
    split; [reflexivity|].
    split; [vm_compute; reflexivity|].
    split; [vm_compute; reflexivity|].
    split; [vm_compute; reflexivity|].
    split; [vm_compute; reflexivity|].
    split; [vm_compute; reflexivity|].
    split; [vm_compute; reflexivity|].
    split; vm_compute; reflexivity.
  - do 3 eexists.
    split; [reflexivity|].
    split; [vm_compute; reflexivity|].
    split; [intro H; vm_compute in H; discriminate H|].
    split; [vm_compute; reflexivity|].
    split; vm_compute; reflexivity.
Qed.

(** ** Overfill at the top of the book *)

(** C10, as the code has it.  On a sorted ladder of positive levels whose
    first row alone strictly exceeds a non-zero notional, row 0 carries the
    slippage quantity [order_amount / best_price], which is
    [desired_amount]; its three metrics are present; the currency and the
    percent slippage are 0, and the dollar slippage is the code's expression
    [order_amount - Q * best_price] (times -1 on the sell side). *)
Theorem top_of_book_overfill (s : Side) (amount : Q) (x0 : Level)
    (rest : list Level) :
  positive (x0 :: rest) -> sorted s (x0 :: rest) ->
  amount < price x0 * quantity x0 -> ~ amount == 0 ->
  exists r v b,
    nth_error (walk s amount (x0 :: rest)) 0 = Some r /\
    slippage r = Some v /\ v == amount / price x0 /\
    r_order_price_1 r = Some b /\ b == price x0 /\
    slippage r =c= desired_amount r /\
    currency_slippage r =c= Some 0 /\
    percent_slippage r =c= Some 0 /\
    dollar_slippage r = Some (adverse s (amount - v * b)).
Proof.
  intros Hpos Hs Hover Ha.
  set (ladder := x0 :: rest) in *.
  assert (Hn : nth_error ladder 0 = Some x0) by reflexivity.
  destruct (positive_nth _ _ _ Hpos Hn) as [Hp Hq].
  assert (Hp0 : ~ price x0 == 0) by lra.
  destruct (order_price_1_sorted s x0 rest Hs) as (b & Hb & Hbe).
  fold ladder in Hb.
  assert (Hb0 : ~ b == 0) by (rewrite Hbe; exact Hp0).
  assert (Hcc : amount < cum_cost ladder 0).
  { rewrite (cum_cost_step ladder 0 x0 Hn). cbn [cum_cost_before]. lra. }
  pose proof (row_at_gt s amount ladder 0 x0 Hcc Hp0) as Hslip.
  pose proof (slippage_quantity_before amount ladder 0 x0 Hn Hp0) as Hv.
  cbn [cum_quantity_before cum_cost_before] in Hv.
  set (v := slippage_quantity amount ladder 0 x0) in *.
  assert (Hve : v == amount / price x0) by (rewrite Hv; field; exact Hp0).
  assert (Hv0 : ~ v == 0).
  { rewrite Hve. intro H. apply Ha.
    setoid_replace amount with (amount / price x0 * price x0) by (field; exact Hp0).
    rewrite H. ring. }
  destruct (row_at_metrics s amount ladder 0 x0 b v Hb Hb0 Hslip Hv0)
    as (Hd & Hcur & Hdol & Hpct).
  exists (row_at s amount ladder 0 x0), v, b.
  split; [reflexivity|].
  split; [exact Hslip|]. split; [exact Hve|].
  split; [exact Hb|]. split; [exact Hbe|].
  rewrite Hslip, Hd, Hcur, Hpct. cbn [Col.eqv].
  assert (Hvb : v == amount / b) by (rewrite Hve, Hbe; reflexivity).
  split; [exact Hvb|]. split.
  - destruct s; cbn; rewrite Hvb; ring.
  - split; [|exact Hdol].
    destruct s; cbn; rewrite Hvb; field; repeat split; assumption.
Qed.

Lemma top_of_book_overfill_witness :
  exists r v b,
    nth_error (walk Bid cost_basis ladder_top) 0 = Some r /\
    slippage r = Some v /\ v == cost_basis / 1700 /\
    r_order_price_1 r = Some b /\ b == 1700 /\
    slippage r =c= desired_amount r /\
    currency_slippage r =c= Some 0 /\
    percent_slippage r =c= Some 0 /\
    dollar_slippage r = Some (adverse Bid (cost_basis - v * b)).
Proof.
  apply (top_of_book_overfill Bid cost_basis (mkLevel 7 true 1700 600)
           [mkLevel 7 true 1699 5]).
  - repeat constructor; cbn; reflexivity.
  - repeat (constructor; try reflexivity).
  - reflexivity.
  - intro H. discriminate H.
Defined.

(** C10, as stated, fails on the code in its dollar figure.  In the code's
    doubles the one-level ask ladder (1729.32, 1000) overfills the notional
    at row 0; Q is [desired_amount], the currency and the percent slippage
    are 0, and the dollar slippage [order_amount - Q * best_price] is not 0
    but a negative rounding residue. *)
Lemma overfill_dollar_residue :
  exists r v c d p,
    nth_error (Double.walk Ask Double.cost_basis d_ladder_overfill) 0 = Some r /\
    PrimFloat.ltb Double.cost_basis (Double.d_cum_cost r) = true /\
    Double.d_slippage r = Some v /\ Double.d_desired_amount r = Some v /\
    Double.d_currency_slippage r = Some c /\ PrimFloat.eqb c 0 = true /\
    Double.d_percent_slippage r = Some p /\ PrimFloat.eqb p 0 = true /\
    Double.d_dollar_slippage r = Some d /\
    PrimFloat.eqb d 0 = false /\ PrimFloat.ltb d 0 = true.
Proof.
  do 5 eexists.
  split; [reflexivity|].
  split; [vm_compute; reflexivity|].
  split; [vm_compute; reflexivity|].
  split; [vm_compute; reflexivity|].
  split; [vm_compute; reflexivity|].
  split; [vm_compute; reflexivity|].
  split; [vm_compute; reflexivity|].
  split; [vm_compute; reflexivity|].
  split; [vm_compute; reflexivity|].
  split; vm_compute; reflexivity.
Qed.

(** ** The first filled row *)

Lemma cum_cost_last (ladder : list Level) (n : nat) :
  length ladder = S n -> cum_cost ladder n = total_cost ladder.
Proof.
  intro H. unfold cum_cost, frame, total_cost.
  rewrite <- H, firstn_all. reflexivity.
Qed.

(** Among the first [n] rows either some row is the first whose cumulative
    cost exceeds the notional, or none exceeds it. *)
Lemma first_over (amount : Q) (ladder : list Level) (n : nat) :
  (exists i, (i < n)%nat /\ amount < cum_cost ladder i /\
             forall j, (j < i)%nat -> cum_cost ladder j <= amount) \/
  (forall j, (j < n)%nat -> cum_cost ladder j <= amount).
Proof.
  induction n as [|n IH].
  - right. intros j Hj. lia.
  - destruct IH as [(i & Hi & Hgt & Hmin) | Hall].
    + left. exists i. repeat split; auto.
    + destruct (Qlt_le_dec amount (cum_cost ladder n)) as [Hgt | Hle].
      * left. exists n. repeat split; auto.
      * right. intros j Hj.
        destruct (Nat.eq_dec j n) as [-> | Hne]; [exact Hle | apply Hall; lia].
Qed.

Lemma filled_row (s : Side) (amount : Q) (ladder : list Level)
    (i : nat) (x : Level) :
  positive ladder -> nth_error ladder i = Some x ->
  amount < cum_cost ladder i ->
  ~ slippage_quantity amount ladder i x == 0 ->
  filled (row_at s amount ladder i x).
Proof.
  intros Hpos Hn Hgt Hv0.
  destruct (positive_nth _ _ _ Hpos Hn) as [Hp _].
  assert (Hp0 : ~ price x == 0) by lra.
  assert (Hne : ladder <> []) by (destruct ladder; [destruct i|]; discriminate).
  destruct (order_price_1_positive s ladder Hpos Hne) as (b & Hb & Hbpos).
  assert (Hb0 : ~ b == 0) by lra.
  pose proof (row_at_gt s amount ladder i x Hgt Hp0) as Hslip.
  destruct (row_at_metrics s amount ladder i x b _ Hb Hb0 Hslip Hv0)
    as (_ & Hc & Hd & Hpc).
  unfold filled. rewrite Hc, Hd, Hpc. repeat split; discriminate.
Qed.

Lemma filled_not_no_fill (r : Row) : filled r -> ~ no_fill r.
Proof. intros (H & _) (H' & _). contradiction. Qed.

(** C1, as the code has it.  On a ladder of positive levels whose total
    cost strictly exceeds a positive notional there is a first row whose
    cumulative cost exceeds the notional; that row carries all three
    metrics and every row before it carries none.  A row carries no metric
    exactly when its cumulative cost does not exceed the notional or its
    slippage quantity is zero, so the rows after the first filled row are
    not cleared. *)
Theorem first_filled_row (s : Side) (amount : Q) (ladder : list Level) :
  positive ladder -> 0 < amount -> amount < total_cost ladder ->
  (exists i r,
     nth_error (walk s amount ladder) i = Some r /\
     amount < cum_cost ladder i /\ cum_cost_before ladder i <= amount /\
     filled r /\
     forall j r', (j < i)%nat ->
       nth_error (walk s amount ladder) j = Some r' -> no_fill r') /\
  (forall k r,
     nth_error (walk s amount ladder) k = Some r ->
     (no_fill r <->
      cum_cost ladder k <= amount \/
      slippage_quantity amount ladder k (level r) == 0)).
Proof.
  intros Hpos Ha Htot. split.
  - destruct (first_over amount ladder (length ladder))
      as [(i & Hi & Hgt & Hmin) | Hall].
    + destruct (nth_error ladder i) as [x|] eqn:Hn;
        [|apply nth_error_None in Hn; lia].
      exists i, (row_at s amount ladder i x).
      assert (Hbefore : cum_cost_before ladder i <= amount).
      { destruct i as [|i]; cbn [cum_cost_before]; [lra | apply Hmin; lia]. }
      split; [rewrite nth_error_walk, Hn; reflexivity|].
      split; [exact Hgt|]. split; [exact Hbefore|]. split.
      * eapply filled_row; eauto.
        pose proof (slippage_quantity_positive amount ladder i x Hpos Ha Hn Hbefore).
        lra.
      * intros j r' Hj Hr'.
        destruct (walk_row _ _ _ _ _ Hr') as (y & _ & ->).
        apply row_at_le. apply Hmin. exact Hj.
    + exfalso. destruct ladder as [|x tl].
      * unfold total_cost in Htot. cbn in Htot. lra.
      * rewrite <- (cum_cost_last (x :: tl) (length tl) eq_refl) in Htot.
        specialize (Hall (length tl)). cbn [length] in Hall.
        assert (cum_cost (x :: tl) (length tl) <= amount) by (apply Hall; lia).
        lra.
  - intros k r Hr.
    destruct (walk_row _ _ _ _ _ Hr) as (x & Hn & ->).
    cbn [level row_at].
    destruct (positive_nth _ _ _ Hpos Hn) as [Hp _].
    assert (Hp0 : ~ price x == 0) by lra.
    destruct (Qlt_le_dec amount (cum_cost ladder k)) as [Hgt | Hle].
    + destruct (Qeq_dec (slippage_quantity amount ladder k x) 0) as [Hz | Hnz].
      * split; [intros _; right; exact Hz | intros _].
        eapply row_at_null; [apply row_at_gt; assumption | exact Hz].
      * split.
        -- intro Hnf. exfalso.
           apply (filled_not_no_fill (row_at s amount ladder k x)); [|exact Hnf].
           eapply filled_row; eauto.
        -- intros [H | H]; [lra | contradiction].
    + split; [intros _; left; exact Hle | intros _].
      apply row_at_le. exact Hle.
Qed.

Lemma first_filled_row_witness :
  positive ladder_3 /\ 0 < cost_basis /\ cost_basis < total_cost ladder_3 /\
  exists i r,
    nth_error (walk Ask cost_basis ladder_3) i = Some r /\
    cost_basis < cum_cost ladder_3 i /\
    cum_cost_before ladder_3 i <= cost_basis /\
    filled r /\
    forall j r', (j < i)%nat ->
      nth_error (walk Ask cost_basis ladder_3) j = Some r' -> no_fill r'.
Proof.
  split; [exact positive_ladder_3|].
  split; [reflexivity|].
  split; [reflexivity|].
  apply (first_filled_row Ask cost_basis ladder_3).
  - exact positive_ladder_3.
  - reflexivity.
  - reflexivity.
Defined.

(** C1, as the specification has it, fails: in the three-level ask ladder
    row 1 passes the crossing test, row 2 does not, and row 2 still carries
    all three metrics. *)
Lemma later_row_filled :
  positive ladder_3 /\ sorted Ask ladder_3 /\
  crossing cost_basis ladder_3 1 /\ ~ crossing cost_basis ladder_3 2 /\
  exists r2,
    nth_error (walk Ask cost_basis ladder_3) 2 = Some r2 /\
    filled r2 /\ ~ no_fill r2.
Proof.
  split; [exact positive_ladder_3|].
  split; [exact sorted_ladder_3|].
  split.
  { unfold crossing. cbn [length ladder_3]. split; [lia|].
    split; vm_compute; [discriminate | reflexivity]. }
  split.
  { intros (_ & _ & H). vm_compute in H. discriminate H. }
  eexists. split; [reflexivity|].
  assert (F : filled (row_at Ask cost_basis ladder_3 2 (mkLevel 7 false 1701 400))).
  { unfold filled. vm_compute. repeat split; discriminate. }
  split; [exact F | apply filled_not_no_fill; exact F].
Qed.

(** ** Exact match *)




(** ** The metrics at the clearing row *)

(** C4, as the code has it.  On a sorted ladder of positive levels, at the
    clearing row whose cumulative cost strictly exceeds the notional, the
    slippage column holds the filled quantity
    [Q = (cum_quantity - quantity) + remaining / price] with
    [remaining = order_amount - (cum_cost - price * quantity)], and with
    [best_price] the price of row 0 and
    [desired_amount = order_amount / best_price] a buy order has
    [currency = desired_amount - Q], [dollar = order_amount - Q * best_price],
    [percent = desired_amount / Q - 1]; a sell order has each of the three
    multiplied by -1. *)
Theorem clearing_row_metrics (s : Side) (amount : Q) (x0 : Level)
    (rest : list Level) (i : nat) (r : Row) :
  positive (x0 :: rest) -> sorted s (x0 :: rest) ->
  crossing amount (x0 :: rest) i -> amount < cum_cost (x0 :: rest) i ->
  nth_error (walk s amount (x0 :: rest)) i = Some r ->
  exists Qv,
    slippage r = Some Qv /\
    Qv == (cum_quantity (x0 :: rest) i - quantity (level r))
          + (amount - (cum_cost (x0 :: rest) i
                       - price (level r) * quantity (level r)))
            / price (level r) /\
    currency_slippage r =c= Some (adverse s (amount / price x0 - Qv)) /\
    dollar_slippage r =c= Some (adverse s (amount - Qv * price x0)) /\
    percent_slippage r =c= Some (adverse s (amount / price x0 / Qv - 1)).
Proof.
  intros Hpos Hs (Hi & _ & Hbefore) Hgt Hr.
  set (ladder := x0 :: rest) in *.
  destruct (walk_row _ _ _ _ _ Hr) as (x & Hn & ->).
  cbn [level row_at].
  destruct (positive_nth _ _ _ Hpos Hn) as [Hp Hq].
  assert (Hp0 : ~ price x == 0) by lra.
  assert (Hp00 : 0 < price x0).
  { apply (positive_nth ladder 0 x0 Hpos). reflexivity. }
  destruct (order_price_1_sorted s x0 rest Hs) as (b & Hb & Hbe).
  fold ladder in Hb.
  assert (Hb0 : ~ b == 0) by (rewrite Hbe; lra).
  assert (Ha : 0 < amount).
  { pose proof (sum_firstn_nonneg (fun x => quantity x * price x) ladder
                  (positive_cost _ Hpos) i) as H.
    rewrite <- cum_cost_before_sum in H. lra. }
  pose proof (slippage_quantity_positive amount ladder i x Hpos Ha Hn
                (Qlt_le_weak _ _ Hbefore)) as Hvpos.
  pose proof (row_at_gt s amount ladder i x Hgt Hp0) as Hslip.
  set (v := slippage_quantity amount ladder i x) in *.
  assert (Hv0 : ~ v == 0) by lra.
  destruct (row_at_metrics s amount ladder i x b v Hb Hb0 Hslip Hv0)
    as (_ & Hcur & Hdol & Hpct).
  exists v. split; [exact Hslip|]. split.
  { unfold v, slippage_quantity. field. exact Hp0. }
  rewrite Hcur, Hdol, Hpct. cbn [Col.eqv].
  repeat split; destruct s; cbn [adverse]; rewrite Hbe; reflexivity.
Qed.

Lemma clearing_row_metrics_witness :
  crossing cost_basis ladder_3 1 /\ cost_basis < cum_cost ladder_3 1 /\
  exists Qv,
    slippage row_3_1 = Some Qv /\
    Qv == (cum_quantity ladder_3 1 - quantity (level row_3_1))
          + (cost_basis - (cum_cost ladder_3 1
                           - price (level row_3_1) * quantity (level row_3_1)))
            / price (level row_3_1) /\
    currency_slippage row_3_1 =c= Some (adverse Ask (cost_basis / 1700 - Qv)) /\
    dollar_slippage row_3_1 =c= Some (adverse Ask (cost_basis - Qv * 1700)) /\
    percent_slippage row_3_1 =c= Some (adverse Ask (cost_basis / 1700 / Qv - 1)).
Proof.
  assert (C : crossing cost_basis ladder_3 1).
  { unfold crossing. cbn [length ladder_3]. split; [lia|].
    split; vm_compute; [discriminate | reflexivity]. }
  split; [exact C|]. split; [reflexivity|].
  apply (clearing_row_metrics Ask cost_basis (mkLevel 7 false 1700 400)
           [mkLevel 7 false (17005 # 10) 400; mkLevel 7 false 1701 400] 1).
  - exact positive_ladder_3.
  - exact sorted_ladder_3.
  - exact C.
  - reflexivity.
  - reflexivity.
Defined.

(** C4, as the specification has it, fails on an exact match: the
    single-level bid ladder with price 1000 and quantity 1000 has its
    clearing row at row 0, where the filled quantity is 1000 and the sell
    currency slippage should be the value [-(desired_amount - Q) = 0]; the
    code leaves the three sell metrics null. *)
Lemma clearing_row_exact_null :
  positive [mkLevel 7 true 1000 1000] /\ sorted Bid [mkLevel 7 true 1000 1000] /\
  crossing cost_basis [mkLevel 7 true 1000 1000] 0 /\
  exists r,
    nth_error (walk Bid cost_basis [mkLevel 7 true 1000 1000]) 0 = Some r /\
    ~ currency_slippage r =c= Some (adverse Bid (cost_basis / 1000 - 1000)) /\
    ~ dollar_slippage r =c= Some (adverse Bid (cost_basis - 1000 * 1000)) /\
    ~ percent_slippage r =c= Some (adverse Bid (cost_basis / 1000 / 1000 - 1)).
Proof.
  split; [repeat constructor; cbn; reflexivity|].
  split; [repeat (constructor; try reflexivity)|].
  split.
  { unfold crossing. cbn [length]. split; [lia|].
    split; vm_compute; [discriminate | reflexivity]. }
  eexists. split; [reflexivity|].
  vm_compute. repeat split; auto.
Qed.

(** ** The three-level scenario *)

(** C5, as the code has it.  For the ask ladder (1700.00, 400),
    (1700.50, 400), (1701.00, 400), which is the ask window of its own rows,
    and the notional 1,000,000: row 1 is the clearing row, remaining is
    320,000, row 0 carries no metric, row 1 carries
    [Q = 400 + 320000 / 1700.5], [desired_amount = 1000000 / 1700] and
    [percent_slippage = desired_amount / Q - 1], which is 8/85017, about
    0.0000941. *)
Theorem scenario_ask_ladder :
  window Ask 7 (book Ask ladder_3) = ladder_3 /\
  crossing cost_basis ladder_3 1 /\
  cost_basis - cum_cost_before ladder_3 1 == 320000 /\
  exists r0 r1 p,
    nth_error (walk Ask cost_basis ladder_3) 0 = Some r0 /\ no_fill r0 /\
    nth_error (walk Ask cost_basis ladder_3) 1 = Some r1 /\
    slippage r1 =c= Some (400 + 320000 / (17005 # 10)) /\
    desired_amount r1 =c= Some (1000000 / 1700) /\
    percent_slippage r1 = Some p /\
    p == (1000000 / 1700) / (400 + 320000 / (17005 # 10)) - 1 /\
    p == 8 # 85017 /\
    (9405 # 100000000) <= p /\ p < (9415 # 100000000).
Proof.
  split; [vm_compute; reflexivity|].
  split.
  { unfold crossing. cbn [length ladder_3]. split; [lia|].
    split; vm_compute; [discriminate | reflexivity]. }
  split; [vm_compute; reflexivity|].
  eexists. eexists. eexists.
  split; [reflexivity|].
  split; [vm_compute; auto|].
  split; [reflexivity|].
  split; [vm_compute; reflexivity|].
  split; [vm_compute; reflexivity|].
  split; [vm_compute; reflexivity|].
  split; [vm_compute; reflexivity|].
  split; [vm_compute; reflexivity|].
  split; vm_compute; [discriminate | reflexivity].
Qed.

(** C5, as the specification has it, fails in its figure: the percent
    slippage of row 1 exceeds the quoted 0.0000841 by more than 0.0000099. *)
Lemma scenario_percent_figure :
  exists r1 p,
    nth_error (walk Ask cost_basis ladder_3) 1 = Some r1 /\
    percent_slippage r1 = Some p /\
    (841 # 10000000) + (99 # 10000000) < p /\
    ~ ((8405 # 100000000) <= p /\ p < (8415 # 100000000)).
Proof.
  eexists. eexists.
  split; [reflexivity|].
  split; [vm_compute; reflexivity|].
  split; [vm_compute; reflexivity|].
  intros [_ H]. vm_compute in H. discriminate H.
Qed.

(** ** Building the ladders *)

Lemma insert_perm (s : Side) (x : Level) (l : list Level) :
  Permutation (insert s x l) (x :: l).
Proof.
  induction l as [|y tl IH]; cbn.
  - apply Permutation_refl.
  - destruct (before s x y).
    + apply Permutation_refl.
    + apply perm_trans with (y :: x :: tl).
      * apply perm_skip. exact IH.
      * apply perm_swap.
Qed.

Lemma order_by_perm (s : Side) (l : list Level) :
  Permutation (order_by s l) l.
Proof.
  induction l as [|x tl IH]; cbn.
  - apply perm_nil.
  - apply perm_trans with (x :: order_by s tl).
    + apply insert_perm.
    + apply perm_skip. exact IH.
Qed.

Lemma before_total (s : Side) (x y : Level) :
  before s x y = false -> before s y x = true.
Proof.
  destruct s; cbn; intro H; apply Qle_bool_iff;
    destruct (Qlt_le_dec (price x) (price y)) as [Hlt | Hle];
    try (apply Qlt_le_weak; exact Hlt); try exact Hle;
    apply Qle_bool_iff in Hle || apply Qlt_le_weak, Qle_bool_iff in Hlt;
    congruence.
Qed.

Lemma before_trans (s : Side) (x y z : Level) :
  before s x y = true -> before s y z = true -> before s x z = true.
Proof.
  destruct s; cbn; rewrite !Qle_bool_iff; intros H1 H2; lra.
Qed.

Lemma insert_sorted (s : Side) (x : Level) (l : list Level) :
  sorted s l -> sorted s (insert s x l).
Proof.
  unfold sorted. induction 1 as [|y tl Htl IH Hy]; cbn.
  - constructor; constructor.
  - destruct (before s x y) eqn:E.
    + constructor; [constructor; assumption|].
      constructor; [exact E|].
      revert Hy. apply Forall_impl. intros z Hz.
      eapply before_trans; eauto.
    + constructor; [exact IH|].
      apply (Permutation_Forall (Permutation_sym (insert_perm s x tl))).
      constructor; [apply before_total; exact E | exact Hy].
Qed.

(** The ladders the code walks satisfy the sort invariant. *)
Lemma window_sorted (s : Side) (t : Z) (rows : list Level) :
  sorted s (window s t rows).
Proof.
  unfold window. induction (timestampWindow t rows) as [|x tl IH]; cbn.
  - constructor.
  - apply insert_sorted. exact IH.
Qed.

Lemma filter_twice (f g : Level -> bool) (l : list Level) :
  filter g (filter f l) = filter (fun x => f x && g x) l.
Proof.
  induction l as [|x tl IH]; cbn; [reflexivity|].
  destruct (f x); cbn; [destruct (g x)|]; rewrite IH; reflexivity.
Qed.

(** C6, as the code has it.  The books are built by a filter on [isBid] and
    the windows by a partition on the instant and an ordering on the price:
    the ladder of an instant and side holds exactly the input levels of that
    instant and side, each as often as the input has it, whatever their
    prices and quantities.  No level is rejected, dropped or altered. *)
Theorem ladder_keeps_every_level (s : Side) (t : Z) (trades : list Level) :
  Permutation
    (window s t (book s trades))
    (filter (fun x => on_side s x && Z.eqb (exchangeTimestamp x) t) trades).
Proof.
  unfold window, timestampWindow, book.
  rewrite filter_twice. apply order_by_perm.
Qed.

(** C6, as the specification has it, fails: a bid level with a negative
    price and a zero quantity is carried into the bid ladder of its instant,
    walked, and the instant is reported. *)
Lemma malformed_level_walked :
  price (mkLevel 7 true (-5) 0) <= 0 /\ quantity (mkLevel 7 true (-5) 0) <= 0 /\
  window Bid 7 (book Bid trades_malformed)
    = [ mkLevel 7 true 1000 2000; mkLevel 7 true (-5) 0 ] /\
  (exists r, nth_error (bid_book cost_basis trades_malformed) 1 = Some r /\
             level r = mkLevel 7 true (-5) 0) /\
  map c_timestamp (orderbook cost_basis trades_malformed) = [7%Z].
Proof.
  split; [vm_compute; discriminate|].
  split; [vm_compute; discriminate|].
  split; [vm_compute; reflexivity|].
  split; [eexists; split; [reflexivity | reflexivity]|].
  vm_compute. reflexivity.
Qed.

(** ** The join and the aggregation *)

Lemma In_window (s : Side) (t : Z) (rows : list Level) (x : Level) :
  In x (window s t rows) <-> In x rows /\ exchangeTimestamp x = t.
Proof.
  unfold window. split.
  - intro H. apply (Permutation_in _ (order_by_perm s _)) in H.
    unfold timestampWindow in H. apply filter_In in H.
    destruct H as [H1 H2]. split; [exact H1 | apply Z.eqb_eq; exact H2].
  - intros [H1 H2].
    apply (Permutation_in _ (Permutation_sym (order_by_perm s _))).
    unfold timestampWindow. apply filter_In. split; [exact H1|].
    apply Z.eqb_eq. exact H2.
Qed.

Lemma In_walk (s : Side) (amount : Q) (ladder : list Level) (r : Row) :
  In r (walk s amount ladder) ->
  exists i x, nth_error ladder i = Some x /\ r = row_at s amount ladder i x.
Proof.
  intro H. apply In_nth_error in H. destruct H as [i Hi].
  exists i. apply walk_row. exact Hi.
Qed.

(** A row of a book with its columns belongs to the walk of the window of
    its own instant. *)
Lemma In_with_columns (s : Side) (amount : Q) (rows : list Level) (r : Row) :
  In r (with_columns s amount rows) ->
  exists i x,
    nth_error (window s (row_ts r) rows) i = Some x /\
    r = row_at s amount (window s (row_ts r) rows) i x.
Proof.
  unfold with_columns. intro H. apply in_flat_map in H.
  destruct H as (t & _ & H).
  destruct (In_walk _ _ _ _ H) as (i & x & Hn & ->).
  assert (Hx : exchangeTimestamp x = t).
  { apply (In_window s t rows x). eapply nth_error_In. exact Hn. }
  unfold row_ts. cbn [level row_at]. rewrite Hx.
  exists i, x. split; [exact Hn | reflexivity].
Qed.

Lemma with_columns_covers (s : Side) (amount : Q) (rows : list Level) (x : Level) :
  In x rows ->
  exists r, In r (with_columns s amount rows) /\
            row_ts r = exchangeTimestamp x.
Proof.
  intro H. set (t := exchangeTimestamp x).
  assert (Hw : In x (window s t rows)) by (apply In_window; auto).
  apply In_nth_error in Hw. destruct Hw as [i Hi].
  exists (row_at s amount (window s t rows) i x). split; [|reflexivity].
  unfold with_columns. apply in_flat_map. exists t. split.
  - unfold timestamps. apply nodup_In. apply in_map. exact H.
  - apply nth_error_In with i. rewrite nth_error_walk, Hi. reflexivity.
Qed.

Lemma with_columns_ts (s : Side) (amount : Q) (rows : list Level) (t : Z) :
  (exists r, In r (with_columns s amount rows) /\ row_ts r = t) <->
  (exists x, In x rows /\ exchangeTimestamp x = t).
Proof.
  split.
  - intros (r & Hr & Ht).
    destruct (In_with_columns _ _ _ _ Hr) as (i & x & Hn & _).
    apply nth_error_In in Hn. apply In_window in Hn.
    exists x. split; [tauto|]. destruct Hn as [_ Hn]. congruence.
  - intros (x & Hx & Ht).
    destruct (with_columns_covers s amount rows x Hx) as (r & Hr & Hrt).
    exists r. split; [exact Hr | congruence].
Qed.

Lemma In_join (bids asks : list Row) (b a : Row) :
  In (b, a) (join bids asks) <->
  In b bids /\ In a asks /\ row_ts a = row_ts b.
Proof.
  unfold join. rewrite in_flat_map. split.
  - intros (b' & Hb & H). apply in_map_iff in H.
    destruct H as (a' & E & Ha). injection E as -> ->.
    apply filter_In in Ha. destruct Ha as [Ha Ht].
    repeat split; [exact Hb | exact Ha | apply Z.eqb_eq; exact Ht].
  - intros (Hb & Ha & Ht). exists b. split; [exact Hb|].
    apply in_map. apply filter_In. split; [exact Ha | apply Z.eqb_eq; exact Ht].
Qed.

Lemma first_ignorenulls_none (vs : list col) :
  Forall (fun v => v = None) vs -> Col.first_ignorenulls vs = None.
Proof.
  induction 1 as [|v tl Hv _ IH]; cbn; [reflexivity|].
  rewrite Hv. exact IH.
Qed.

Lemma cum_cost_le_total (ladder : list Level) (i : nat) :
  positive ladder -> (i < length ladder)%nat ->
  cum_cost ladder i <= total_cost ladder.
Proof.
  intros Hpos Hi. unfold cum_cost, frame, total_cost.
  destruct (Nat.eq_dec (S i) (length ladder)) as [E | NE].
  - rewrite E, firstn_all. apply Qle_refl.
  - rewrite <- (firstn_all ladder) at 2. apply Qlt_le_weak.
    apply sum_firstn_lt; [apply positive_cost; exact Hpos | lia | lia].
Qed.

(** On a side whose ladder cannot cover the notional, every row of the
    instant has null metrics. *)
Lemma thin_ladder_rows (s : Side) (amount : Q) (rows : list Level) (r : Row) :
  In r (with_columns s amount rows) ->
  positive (window s (row_ts r) rows) ->
  total_cost (window s (row_ts r) rows) <= amount ->
  no_fill r.
Proof.
  intros Hr Hpos Htot.
  destruct (In_with_columns _ _ _ _ Hr) as (i & x & Hn & E).
  rewrite E. apply row_at_le.
  apply Qle_trans with (total_cost (window s (row_ts r) rows)); [|exact Htot].
  apply cum_cost_le_total; [exact Hpos|].
  apply nth_error_Some. congruence.
Qed.

Lemma orderbook_timestamps (amount : Q) (trades : list Level) :
  map c_timestamp (orderbook amount trades)
  = nodup Z.eq_dec
      (map (fun p => row_ts (fst p))
           (join (bid_book amount trades) (ask_book amount trades))).
Proof.
  unfold orderbook. cbn zeta. rewrite map_map. cbn [c_timestamp agg].
  apply map_id.
Qed.

Lemma In_group (t : Z) (joined : list (Row * Row)) (b a : Row) :
  In (b, a) (group t joined) <-> In (b, a) joined /\ row_ts b = t.
Proof.
  unfold group. rewrite filter_In. cbn [fst]. rewrite Z.eqb_eq. tauto.
Qed.

Lemma group_side_null (amount : Q) (trades : list Level) (t : Z)
    (s : Side) (pick : Row * Row -> Row) (f : Row -> col) :
  (forall b a, pick (b, a) = match s with Bid => b | Ask => a end) ->
  (forall r, no_fill r -> f r = None) ->
  positive (window s t (book s trades)) ->
  total_cost (window s t (book s trades)) <= amount ->
  Col.first_ignorenulls
    (map (fun p => f (pick p))
         (group t (join (bid_book amount trades) (ask_book amount trades))))
  = None.
Proof.
  intros Hpick Hf Hpos Htot. apply first_ignorenulls_none.
  rewrite Forall_map. apply Forall_forall. intros [b a] Hp.
  apply In_group in Hp. destruct Hp as [Hj Ht].
  apply In_join in Hj. destruct Hj as (Hb & Ha & Hta).
  apply Hf. rewrite Hpick. destruct s.
  - apply (thin_ladder_rows Bid amount (book Bid trades) b Hb); rewrite Ht; assumption.
  - assert (Hat : row_ts a = t) by congruence.
    apply (thin_ladder_rows Ask amount (book Ask trades) a Ha); rewrite Hat; assumption.
Qed.

(** C3, as the code has it.  The books are joined row by row before the
    aggregation, so an instant is reported exactly when both books have a
    level at it; and on a side whose ladder (positive levels) has a total
    cost below the notional, the three metrics of that side are null in the
    reported record. *)
Theorem combined_timestamps (amount : Q) (trades : list Level) :
  (forall t,
     In t (map c_timestamp (orderbook amount trades)) <->
     (exists b, In b (book Bid trades) /\ exchangeTimestamp b = t) /\
     (exists a, In a (book Ask trades) /\ exchangeTimestamp a = t)) /\
  (forall c,
     In c (orderbook amount trades) ->
     (positive (window Bid (c_timestamp c) (book Bid trades)) ->
      total_cost (window Bid (c_timestamp c) (book Bid trades)) < amount ->
      sell_currency_slippage c = None /\ sell_dollar_slippage c = None /\
      sell_percent_slippage c = None) /\
     (positive (window Ask (c_timestamp c) (book Ask trades)) ->
      total_cost (window Ask (c_timestamp c) (book Ask trades)) < amount ->
      buy_currency_slippage c = None /\ buy_dollar_slippage c = None /\
      buy_percent_slippage c = None)).
Proof.
  split.
  - intro t. rewrite orderbook_timestamps, nodup_In, in_map_iff.
    rewrite <- (with_columns_ts Bid amount (book Bid trades) t).
    rewrite <- (with_columns_ts Ask amount (book Ask trades) t).
    split.
    + intros ([b a] & Ht & Hj). cbn [fst] in Ht.
      apply In_join in Hj. destruct Hj as (Hb & Ha & Hta).
      split; [exists b | exists a]; split; auto; congruence.
    + intros [(b & Hb & Htb) (a & Ha & Hta)].
      exists (b, a). split; [exact Htb|].
      apply In_join. repeat split; auto; congruence.
  - intros c Hc. unfold orderbook in Hc. cbn zeta in Hc.
    apply in_map_iff in Hc. destruct Hc as (t & <- & _).
    cbn [c_timestamp agg sell_currency_slippage sell_dollar_slippage
         sell_percent_slippage buy_currency_slippage buy_dollar_slippage
         buy_percent_slippage].
    split; intros Hpos Htot; apply Qlt_le_weak in Htot.
    + repeat split;
        apply (group_side_null amount trades t Bid fst); auto;
        intros r (H1 & H2 & H3); assumption.
    + repeat split;
        apply (group_side_null amount trades t Ask snd); auto;
        intros r (H1 & H2 & H3); assumption.
Qed.

Lemma combined_timestamps_witness :
  exists c,
    In c (orderbook cost_basis trades_thin) /\
    positive (window Bid (c_timestamp c) (book Bid trades_thin)) /\
    total_cost (window Bid (c_timestamp c) (book Bid trades_thin)) < cost_basis /\
    sell_currency_slippage c = None /\ sell_dollar_slippage c = None /\
    sell_percent_slippage c = None.
Proof.
  assert (Hin : In (agg 7 (group 7 (join (bid_book cost_basis trades_thin)
                                          (ask_book cost_basis trades_thin))))
                   (orderbook cost_basis trades_thin)).
  { left. reflexivity. }
  assert (Hpos : positive (window Bid 7 (book Bid trades_thin))).
  { repeat constructor; cbn; reflexivity. }
  assert (Htot : total_cost (window Bid 7 (book Bid trades_thin)) < cost_basis).
  { reflexivity. }
  eexists. split; [exact Hin|].
  split; [exact Hpos|]. split; [exact Htot|].
  exact (proj1 (proj2 (combined_timestamps cost_basis trades_thin) _ Hin) Hpos Htot).
Defined.

(** C3, as the specification has it, fails: at instant 7 the bid ladder
    costs 1000, below the notional, no bid row passes the crossing test, the
    ask ladder covers the notional, and the instant is reported, with its
    buy metrics present and its sell metrics null. *)
Lemma thin_side_still_reported :
  total_cost (window Bid 7 (book Bid trades_thin)) < cost_basis /\
  (forall i, ~ crossing cost_basis (window Bid 7 (book Bid trades_thin)) i) /\
  cost_basis < total_cost (window Ask 7 (book Ask trades_thin)) /\
  In 7%Z (map c_timestamp (orderbook cost_basis trades_thin)) /\
  exists c,
    orderbook cost_basis trades_thin = [c] /\ c_timestamp c = 7%Z /\
    sell_percent_slippage c = None /\ buy_percent_slippage c <> None.
Proof.
  split; [reflexivity|].
  split.
  { intros i (Hi & H & _). cbn in Hi.
    assert (i = 0%nat) by lia. subst i. vm_compute in H. apply H. reflexivity. }
  split; [reflexivity|].
  split; [vm_compute; auto|].
  eexists. split; [reflexivity|].
  split; [reflexivity|]. split; [reflexivity|].
  vm_compute. discriminate.
Qed.

(** * Further properties of the books and the walk *)

(** ** The two books *)

Lemma raw_book_sides (x : RawLevel) :
  match raw_isBid x with
  | Some true => raw_on_side Bid x = true /\ raw_on_side Ask x = false
  | Some false => raw_on_side Bid x = false /\ raw_on_side Ask x = true
  | None => raw_on_side Bid x = false /\ raw_on_side Ask x = false
  end.
Proof.
  unfold raw_on_side. destruct (raw_isBid x) as [[|]|]; split; reflexivity.
Qed.

Lemma levels_of_cons (x : RawLevel) (tl : list RawLevel) :
  levels_of (x :: tl)
  = match raw_isBid x with
    | Some b => [mkLevel (raw_timestamp x) b (raw_price x) (raw_quantity x)]
    | None => []
    end ++ levels_of tl.
Proof. reflexivity. Qed.

(** A row of [trades] whose [isBid] is not null goes to exactly one of the
    two books, and a row whose [isBid] is null goes to neither: the bid
    book, the ask book and the rows with a null [isBid] together hold the
    rows of [trades], each as often as [trades] has it.  The books of the
    rows with a known [isBid] are the books of the levels. *)
Theorem books_split_trades (trades : list RawLevel) :
  Permutation
    (raw_book Bid trades ++ raw_book Ask trades ++ filter raw_null trades)
    trades /\
  (forall x, ~ (In x (raw_book Bid trades) /\ In x (raw_book Ask trades))) /\
  (forall x s, In x (raw_book s trades) -> raw_isBid x <> None) /\
  (forall s, book s (levels_of trades) = levels_of (raw_book s trades)).
Proof.
  split; [|split; [|split]].
  - induction trades as [|x tl IH]; [apply perm_nil|].
    unfold raw_book in *. cbn [filter].
    pose proof (raw_book_sides x) as Hx. unfold raw_null at 1.
    destruct (raw_isBid x) as [[|]|]; destruct Hx as [-> ->].
    + cbn. apply perm_skip. exact IH.
    + apply Permutation_sym, Permutation_cons_app, Permutation_sym.
      cbn [app]. exact IH.
    + rewrite app_assoc.
      apply Permutation_sym, Permutation_cons_app, Permutation_sym.
      rewrite <- app_assoc. exact IH.
  - intros x [Hb Ha]. unfold raw_book in Hb, Ha.
    apply filter_In in Hb. apply filter_In in Ha.
    destruct Hb as [_ Hb]. destruct Ha as [_ Ha].
    pose proof (raw_book_sides x) as Hx.
    destruct (raw_isBid x) as [[|]|]; destruct Hx; congruence.
  - intros x s H. unfold raw_book in H. apply filter_In in H.
    destruct H as [_ H]. unfold raw_on_side in H.
    destruct (raw_isBid x); [discriminate | discriminate H].
  - intro s. induction trades as [|x tl IH]; [reflexivity|].
    unfold raw_book, book in *. rewrite levels_of_cons, filter_app, IH.
    change (filter (raw_on_side s) (x :: tl))
      with (if raw_on_side s x then x :: filter (raw_on_side s) tl
            else filter (raw_on_side s) tl).
    destruct (raw_isBid x) as [b|] eqn:E.
    + set (L := mkLevel (raw_timestamp x) b (raw_price x) (raw_quantity x)).
      assert (Hs : raw_on_side s x = on_side s L).
      { unfold raw_on_side, on_side. rewrite E. destruct s; reflexivity. }
      rewrite Hs.
      change (filter (on_side s) [L]) with (if on_side s L then [L] else []).
      destruct (on_side s L); [rewrite levels_of_cons, E|]; reflexivity.
    + assert (Hs : raw_on_side s x = false).
      { unfold raw_on_side. rewrite E. reflexivity. }
      rewrite Hs. reflexivity.
Qed.

Lemma books_split_trades_witness :
  In (mkRawLevel (Some true) 7 1000 2000) (raw_book Bid raw_trades_sample) /\
  raw_isBid (mkRawLevel (Some true) 7 1000 2000) <> None.
Proof.
  assert (H : In (mkRawLevel (Some true) 7 1000 2000)
                 (raw_book Bid raw_trades_sample)).
  { left. reflexivity. }
  split; [exact H|].
  exact (proj1 (proj2 (proj2 (books_split_trades raw_trades_sample))) _ Bid H).
Defined.

(** ** Prices along a sorted ladder *)

Lemma before_refl (s : Side) (x : Level) : before s x x = true.
Proof. destruct s; cbn; apply Qle_bool_iff; apply Qle_refl. Qed.

Lemma sorted_head_before (s : Side) (x0 : Level) (rest : list Level) :
  sorted s (x0 :: rest) ->
  Forall (fun y => before s x0 y = true) (x0 :: rest).
Proof.
  intro H. apply StronglySorted_inv in H. destruct H as [_ H].
  constructor; [apply before_refl | exact H].
Qed.

(** The rows of the frame before row [k] stand before row [k]. *)
Lemma sorted_firstn_before (s : Side) (l : list Level) :
  sorted s l ->
  forall k x, nth_error l k = Some x ->
  Forall (fun y => before s y x = true) (firstn k l).
Proof.
  induction 1 as [|y tl Htl IH Hy]; intros k x Hn.
  - destruct k; discriminate.
  - destruct k as [|k]; cbn; [constructor|].
    cbn in Hn. constructor.
    + rewrite Forall_forall in Hy. apply Hy. eapply nth_error_In. exact Hn.
    + apply IH. exact Hn.
Qed.

Lemma Forall_firstn (P : Level -> Prop) (l : list Level) (n : nat) :
  Forall P l -> Forall P (firstn n l).
Proof.
  intro H. revert n. induction H as [|y tl Hy _ IH]; intros [|n]; cbn;
    constructor; auto.
Qed.

(** A frame all of whose prices are at most [c] costs at most [c] a unit,
    and one all of whose prices are at least [c] costs at least [c]. *)
Lemma cost_le_bound (c : Q) (l : list Level) :
  Forall (fun x => 0 < quantity x) l -> Forall (fun x => price x <= c) l ->
  Col.sum (map (fun x => quantity x * price x) l) <= c * Col.sum (map quantity l).
Proof.
  induction 1 as [|y tl Hy _ IH]; intro Hp; cbn; [lra|].
  apply Forall_cons_iff in Hp. destruct Hp as [Hpy Hp]. specialize (IH Hp).
  assert (quantity y * price y <= quantity y * c) by nra. lra.
Qed.

Lemma cost_ge_bound (c : Q) (l : list Level) :
  Forall (fun x => 0 < quantity x) l -> Forall (fun x => c <= price x) l ->
  c * Col.sum (map quantity l) <= Col.sum (map (fun x => quantity x * price x) l).
Proof.
  induction 1 as [|y tl Hy _ IH]; intro Hp; cbn; [lra|].
  apply Forall_cons_iff in Hp. destruct Hp as [Hpy Hp]. specialize (IH Hp).
  assert (quantity y * c <= quantity y * price y) by nra. lra.
Qed.

(** The cost of a frame against the top of the book. *)
Lemma cost_vs_top (s : Side) (x0 : Level) (rest : list Level) (n : nat) :
  positive (x0 :: rest) -> sorted s (x0 :: rest) ->
  let cq := Col.sum (map quantity (firstn n (x0 :: rest))) in
  let cc := Col.sum (map (fun x => quantity x * price x) (firstn n (x0 :: rest))) in
  match s with
  | Bid => cc <= price x0 * cq
  | Ask => price x0 * cq <= cc
  end.
Proof.
  intros Hpos Hs. cbn zeta.
  pose proof (Forall_firstn _ _ n (positive_quantity _ Hpos)) as Hq.
  pose proof (Forall_firstn _ _ n (sorted_head_before s x0 rest Hs)) as Hb.
  destruct s.
  - apply cost_le_bound; [exact Hq|]. revert Hb. apply Forall_impl.
    intros y Hy. cbn in Hy. apply Qle_bool_iff. exact Hy.
  - apply cost_ge_bound; [exact Hq|]. revert Hb. apply Forall_impl.
    intros y Hy. cbn in Hy. apply Qle_bool_iff. exact Hy.
Qed.

(** The cost of the frame before row [k] against the price of row [k]. *)
Lemma cost_vs_row (s : Side) (ladder : list Level) (k : nat) (x : Level) :
  positive ladder -> sorted s ladder -> nth_error ladder k = Some x ->
  match s with
  | Bid => price x * cum_quantity_before ladder k <= cum_cost_before ladder k
  | Ask => cum_cost_before ladder k <= price x * cum_quantity_before ladder k
  end.
Proof.
  intros Hpos Hs Hn.
  rewrite cum_cost_before_sum, cum_quantity_before_sum.
  pose proof (Forall_firstn _ _ k (positive_quantity _ Hpos)) as Hq.
  pose proof (sorted_firstn_before s ladder Hs k x Hn) as Hb.
  destruct s.
  - apply cost_ge_bound; [exact Hq|]. revert Hb. apply Forall_impl.
    intros y Hy. cbn in Hy. apply Qle_bool_iff. exact Hy.
  - apply cost_le_bound; [exact Hq|]. revert Hb. apply Forall_impl.
    intros y Hy. cbn in Hy. apply Qle_bool_iff. exact Hy.
Qed.

(** On a sorted ladder of positive levels the running cost is never better
    than the top of the book: at every row of an ask ladder
    [cum_cost >= buy_order_price_1 * cum_quantity], and at every row of a
    bid ladder [cum_cost <= sell_order_price_1 * cum_quantity]. *)
Theorem running_cost_vs_top_of_book (s : Side) (amount : Q)
    (ladder : list Level) (i : nat) (r : Row) :
  positive ladder -> sorted s ladder ->
  nth_error (walk s amount ladder) i = Some r ->
  exists b,
    r_order_price_1 r = Some b /\
    match s with
    | Bid => r_cum_cost r <= b * r_cum_quantity r
    | Ask => b * r_cum_quantity r <= r_cum_cost r
    end.
Proof.
  intros Hpos Hs Hr.
  destruct (walk_row _ _ _ _ _ Hr) as (x & Hn & ->).
  destruct ladder as [|x0 rest]; [destruct i; discriminate|].
  destruct (order_price_1_sorted s x0 rest Hs) as (b & Hb & Hbe).
  exists b. cbn [row_at r_order_price_1 r_cum_cost r_cum_quantity].
  split; [exact Hb|].
  pose proof (cost_vs_top s x0 rest (S i) Hpos Hs) as H. cbn zeta in H.
  unfold cum_cost, cum_quantity, frame.
  destruct s; rewrite Hbe; exact H.
Qed.

Lemma running_cost_vs_top_of_book_witness :
  exists b,
    r_order_price_1 row_3_1 = Some b /\
    b * r_cum_quantity row_3_1 <= r_cum_cost row_3_1.
Proof.
  apply (running_cost_vs_top_of_book Ask cost_basis ladder_3 1 row_3_1).
  - exact positive_ladder_3.
  - exact sorted_ladder_3.
  - reflexivity.
Defined.

(** ** The sign of the metrics *)

(** What a non-null currency slippage tells about its row. *)
Lemma currency_some_row (s : Side) (amount : Q) (ladder : list Level)
    (i : nat) (x : Level) (c : Q) :
  positive ladder -> nth_error ladder i = Some x ->
  currency_slippage (row_at s amount ladder i x) = Some c ->
  amount < cum_cost ladder i /\
  ~ slippage_quantity amount ladder i x == 0 /\
  exists b, order_price_1 s ladder = Some b /\ 0 < b /\
    c = adverse s (amount / b - slippage_quantity amount ladder i x) /\
    dollar_slippage (row_at s amount ladder i x)
      = Some (adverse s (amount - slippage_quantity amount ladder i x * b)) /\
    percent_slippage (row_at s amount ladder i x)
      = Some (adverse s (amount / b / slippage_quantity amount ladder i x - 1)).
Proof.
  intros Hpos Hn Hc.
  destruct (positive_nth _ _ _ Hpos Hn) as [Hp _].
  assert (Hp0 : ~ price x == 0) by lra.
  assert (Hgt : amount < cum_cost ladder i).
  { destruct (Qlt_le_dec amount (cum_cost ladder i)) as [H | H]; [exact H|].
    destruct (row_at_le s amount ladder i x H) as [_ (Hnf & _)]. congruence. }
  pose proof (row_at_gt s amount ladder i x Hgt Hp0) as Hslip.
  assert (Hv0 : ~ slippage_quantity amount ladder i x == 0).
  { intro Hz.
    destruct (row_at_null s amount ladder i x _ Hslip Hz) as (Hnf & _).
    congruence. }
  assert (Hne : ladder <> []) by (destruct ladder; [destruct i|]; discriminate).
  destruct (order_price_1_positive s ladder Hpos Hne) as (b & Hb & Hbpos).
  assert (Hb0 : ~ b == 0) by lra.
  destruct (row_at_metrics s amount ladder i x b _ Hb Hb0 Hslip Hv0)
    as (_ & Hcur & Hdol & Hpct).
  split; [exact Hgt|]. split; [exact Hv0|].
  exists b. split; [exact Hb|]. split; [exact Hbpos|].
  split; [congruence|]. split; assumption.
Qed.

(** At the first row past the notional of a sorted ladder of positive
    levels, when that row is reached with part of the notional still to
    fill and its price is not the top-of-book price, the three metrics are
    present and strictly positive, on the buy side and, through the [*-1]
    of the sell columns, on the sell side as well. *)
Theorem fill_beyond_top_is_a_cost (s : Side) (amount : Q) (x0 : Level)
    (rest : list Level) (i : nat) (r : Row) :
  positive (x0 :: rest) -> sorted s (x0 :: rest) ->
  nth_error (walk s amount (x0 :: rest)) i = Some r ->
  amount < cum_cost (x0 :: rest) i ->
  cum_cost_before (x0 :: rest) i < amount ->
  ~ price (level r) == price x0 ->
  exists c d p,
    currency_slippage r = Some c /\ dollar_slippage r = Some d /\
    percent_slippage r = Some p /\ 0 < c /\ 0 < d /\ 0 < p.
Proof.
  intros Hpos Hs Hr Hgt Hbefore Hgap.
  set (ladder := x0 :: rest) in *.
  destruct (walk_row _ _ _ _ _ Hr) as (x & Hn & ->).
  cbn [level row_at] in Hgap.
  destruct (positive_nth _ _ _ Hpos Hn) as [Hp Hq].
  assert (Hp0 : ~ price x == 0) by lra.
  assert (Hp00 : 0 < price x0).
  { apply (positive_nth ladder 0 x0 Hpos). reflexivity. }
  assert (Ha : 0 < amount).
  { pose proof (sum_firstn_nonneg (fun x => quantity x * price x) ladder
                  (positive_cost _ Hpos) i) as H.
    rewrite <- cum_cost_before_sum in H. lra. }
  destruct (order_price_1_sorted s x0 rest Hs) as (b & Hb & Hbe).
  fold ladder in Hb.
  assert (Hb0 : ~ b == 0) by (rewrite Hbe; lra).
  pose proof (slippage_quantity_positive amount ladder i x Hpos Ha Hn
                (Qlt_le_weak _ _ Hbefore)) as Hvpos.
  pose proof (row_at_gt s amount ladder i x Hgt Hp0) as Hslip.
  pose proof (slippage_quantity_before amount ladder i x Hn Hp0) as Hv.
  set (v := slippage_quantity amount ladder i x) in *.
  assert (Hv0 : ~ v == 0) by lra.
  destruct (row_at_metrics s amount ladder i x b v Hb Hb0 Hslip Hv0)
    as (_ & Hcur & Hdol & Hpct).
  set (t := (amount - cum_cost_before ladder i) / price x) in *.
  assert (Ht : t * price x == amount - cum_cost_before ladder i).
  { unfold t. field. exact Hp0. }
  assert (Ht0 : 0 < t) by (unfold t; apply Qlt_shift_div_l; lra).
  pose proof (cost_vs_top s x0 rest i Hpos Hs) as Htop. cbn zeta in Htop.
  fold ladder in Htop.
  rewrite <- cum_cost_before_sum, <- cum_quantity_before_sum in Htop.
  assert (Hx0x : before s x0 x = true).
  { pose proof (sorted_head_before s x0 rest Hs) as H.
    rewrite Forall_forall in H. apply H. eapply nth_error_In. exact Hn. }
  assert (Hdev : 0 < adverse s (amount - v * price x0)).
  { destruct s; cbn [adverse]; cbn in Hx0x; apply Qle_bool_iff in Hx0x;
      rewrite Hv.
    - assert (price x < price x0).
      { apply Qnot_le_lt. intro H. apply Hgap. lra. }
      assert (t * price x < t * price x0) by nra. nra.
    - assert (price x0 < price x).
      { apply Qnot_le_lt. intro H. apply Hgap. lra. }
      assert (t * price x0 < t * price x) by nra. nra. }
  exists (adverse s (amount / b - v)), (adverse s (amount - v * b)),
         (adverse s (amount / b / v - 1)).
  split; [exact Hcur|]. split; [exact Hdol|]. split; [exact Hpct|].
  assert (Hd : 0 < adverse s (amount - v * b)).
  { destruct s; cbn [adverse] in *; rewrite Hbe; exact Hdev. }
  assert (Hc : 0 < adverse s (amount / b - v)).
  { setoid_replace (adverse s (amount / b - v))
      with (adverse s (amount - v * b) / b)
      by (destruct s; cbn [adverse]; field; exact Hb0).
    apply Qlt_shift_div_l; lra. }
  split; [exact Hc|]. split; [exact Hd|].
  setoid_replace (adverse s (amount / b / v - 1))
    with (adverse s (amount / b - v) / v)
    by (destruct s; cbn [adverse]; field; auto).
  apply Qlt_shift_div_l; [exact Hvpos | lra].
Qed.

Lemma fill_beyond_top_is_a_cost_witness :
  exists c d p,
    currency_slippage row_3_1 = Some c /\ dollar_slippage row_3_1 = Some d /\
    percent_slippage row_3_1 = Some p /\ 0 < c /\ 0 < d /\ 0 < p.
Proof.
  apply (fill_beyond_top_is_a_cost Ask cost_basis (mkLevel 7 false 1700 400)
           [mkLevel 7 false (17005 # 10) 400; mkLevel 7 false 1701 400] 1).
  - exact positive_ladder_3.
  - exact sorted_ladder_3.
  - reflexivity.
  - reflexivity.
  - reflexivity.
  - intro H. vm_compute in H. discriminate H.
Defined.

(** ** Rows past the notional *)

Lemma ask_slippage_quantity_positive (amount : Q) (ladder : list Level)
    (k : nat) (x : Level) :
  positive ladder -> sorted Ask ladder -> 0 < amount ->
  nth_error ladder k = Some x ->
  0 < slippage_quantity amount ladder k x.
Proof.
  intros Hpos Hs Ha Hn.
  destruct (positive_nth _ _ _ Hpos Hn) as [Hp Hq].
  assert (Hp0 : ~ price x == 0) by lra.
  rewrite (slippage_quantity_before amount ladder k x Hn Hp0).
  pose proof (cost_vs_row Ask ladder k x Hpos Hs Hn) as Hc. cbn in Hc.
  set (t := (amount - cum_cost_before ladder k) / price x).
  assert (Ht : t * price x == amount - cum_cost_before ladder k).
  { unfold t. field. exact Hp0. }
  apply Qnot_le_lt. intro Hle.
  assert ((cum_quantity_before ladder k + t) * price x <= 0) by nra.
  nra.
Qed.

(** On a sorted ask ladder of positive levels, with a positive notional,
    the rows without metrics are exactly the rows whose cumulative cost does
    not exceed the notional: every row past the notional carries all three
    buy metrics, not only the first. *)
Theorem ask_rows_past_notional_filled (amount : Q) (ladder : list Level)
    (k : nat) (r : Row) :
  positive ladder -> sorted Ask ladder -> 0 < amount ->
  nth_error (walk Ask amount ladder) k = Some r ->
  (no_fill r <-> cum_cost ladder k <= amount) /\
  (filled r <-> amount < cum_cost ladder k).
Proof.
  intros Hpos Hs Ha Hr.
  destruct (walk_row _ _ _ _ _ Hr) as (x & Hn & ->).
  pose proof (ask_slippage_quantity_positive amount ladder k x Hpos Hs Ha Hn)
    as Hv.
  assert (Hfill : amount < cum_cost ladder k ->
                  filled (row_at Ask amount ladder k x)).
  { intro Hgt. eapply filled_row; eauto. lra. }
  assert (Hnull : cum_cost ladder k <= amount ->
                  no_fill (row_at Ask amount ladder k x)).
  { intro Hle. apply row_at_le. exact Hle. }
  split; split.
  - intro Hnf. destruct (Qlt_le_dec amount (cum_cost ladder k)) as [H | H];
      [|exact H].
    exfalso. exact (filled_not_no_fill _ (Hfill H) Hnf).
  - exact Hnull.
  - intro Hf. destruct (Qlt_le_dec amount (cum_cost ladder k)) as [H | H];
      [exact H|].
    exfalso. exact (filled_not_no_fill _ Hf (Hnull H)).
  - exact Hfill.
Qed.

Lemma ask_rows_past_notional_filled_witness :
  exists r,
    nth_error (walk Ask cost_basis ladder_3) 2 = Some r /\
    (no_fill r <-> cum_cost ladder_3 2 <= cost_basis) /\
    (filled r <-> cost_basis < cum_cost ladder_3 2).
Proof.
  eexists. split; [reflexivity|].
  apply (ask_rows_past_notional_filled cost_basis ladder_3 2).
  - exact positive_ladder_3.
  - exact sorted_ladder_3.
  - reflexivity.
  - reflexivity.
Defined.

Lemma sorted_nth (s : Side) (l : list Level) :
  sorted s l ->
  forall i j x y, (i < j)%nat ->
  nth_error l i = Some x -> nth_error l j = Some y -> before s x y = true.
Proof.
  intros Hs i j x y Hij Hi Hj.
  pose proof (sorted_firstn_before s l Hs j y Hj) as H.
  rewrite Forall_forall in H. apply H.
  apply nth_error_In with i. rewrite nth_error_firstn.
  destruct (Nat.ltb_spec i j); [exact Hi | lia].
Qed.

(** From one row to the next the first branch of the slippage column moves
    by the price ratio times the overshoot of the row. *)
Lemma slippage_quantity_step (amount : Q) (ladder : list Level)
    (k : nat) (x y : Level) :
  nth_error ladder k = Some x -> nth_error ladder (S k) = Some y ->
  ~ price x == 0 -> ~ price y == 0 ->
  slippage_quantity amount ladder (S k) y - slippage_quantity amount ladder k x
  == (1 - price x / price y) * ((cum_cost ladder k - amount) / price x).
Proof.
  intros Hx Hy Hpx Hpy.
  rewrite (slippage_quantity_before amount ladder (S k) y Hy Hpy).
  rewrite (slippage_quantity_before amount ladder k x Hx Hpx).
  cbn [cum_quantity_before cum_cost_before].
  rewrite (cum_cost_step ladder k x Hx), (cum_quantity_step ladder k x Hx).
  field. split; assumption.
Qed.

Lemma cum_cost_mono (ladder : list Level) (i j : nat) :
  positive ladder -> (i <= j)%nat -> (j < length ladder)%nat ->
  cum_cost ladder i <= cum_cost ladder j.
Proof.
  intros Hpos Hij Hj.
  destruct (Nat.eq_dec i j) as [-> | Hne]; [apply Qle_refl|].
  apply Qlt_le_weak. unfold cum_cost, frame.
  apply sum_firstn_lt; [apply positive_cost; exact Hpos | lia | lia].
Qed.

(** Past the notional the slippage column never falls along an ask ladder
    and never rises along a bid ladder. *)
Lemma slippage_quantity_mono (s : Side) (amount : Q) (ladder : list Level) :
  positive ladder -> sorted s ladder ->
  forall d k x y,
  nth_error ladder k = Some x -> nth_error ladder (k + d) = Some y ->
  amount < cum_cost ladder k ->
  match s with
  | Bid => slippage_quantity amount ladder (k + d) y
           <= slippage_quantity amount ladder k x
  | Ask => slippage_quantity amount ladder k x
           <= slippage_quantity amount ladder (k + d) y
  end.
Proof.
  intros Hpos Hs. induction d as [|d IH]; intros k x y Hx Hy Hgt.
  - rewrite Nat.add_0_r in *. assert (x = y) by congruence. subst y.
    destruct s; apply Qle_refl.
  - rewrite Nat.add_succ_r in *.
    assert (Hlen : (S (k + d) < length ladder)%nat).
    { apply nth_error_Some. congruence. }
    destruct (nth_error ladder (k + d)) as [z|] eqn:Hz;
      [|apply nth_error_None in Hz; lia].
    specialize (IH k x z Hx Hz Hgt).
    destruct (positive_nth _ _ _ Hpos Hz) as [Hpz Hqz].
    destruct (positive_nth _ _ _ Hpos Hy) as [Hpy Hqy].
    assert (Hover : 0 < (cum_cost ladder (k + d) - amount) / price z).
    { apply Qlt_shift_div_l; [exact Hpz|].
      pose proof (cum_cost_mono ladder k (k + d) Hpos) as Hm.
      assert (cum_cost ladder k <= cum_cost ladder (k + d)) by (apply Hm; lia).
      lra. }
    pose proof (slippage_quantity_step amount ladder (k + d) z y Hz Hy) as Hstep.
    assert (Hzy : before s z y = true).
    { apply (sorted_nth s ladder Hs (k + d) (S (k + d))); auto. }
    assert (Hratio : price z / price y * price y == price z)
      by (field; lra).
    destruct s; cbn in Hzy; apply Qle_bool_iff in Hzy.
    + assert (1 <= price z / price y).
      { apply Qnot_lt_le. intro Hlt.
        assert (price z / price y * price y < 1 * price y) by nra. lra. }
      assert (slippage_quantity amount ladder (S (k + d)) y
              - slippage_quantity amount ladder (k + d) z <= 0).
      { rewrite Hstep; [nra | lra | lra]. }
      lra.
    + assert (price z / price y <= 1).
      { apply Qnot_lt_le. intro Hlt.
        assert (1 * price y < price z / price y * price y) by nra. lra. }
      assert (0 <= slippage_quantity amount ladder (S (k + d)) y
                   - slippage_quantity amount ladder (k + d) z).
      { rewrite Hstep; [nra | lra | lra]. }
      lra.
Qed.

(** On a sorted ladder of positive levels a later row never shows more
    currency or dollar slippage than an earlier row: among the rows that
    carry metrics the first one carries the largest, on both sides. *)
Theorem first_row_has_largest_slippage (s : Side) (amount : Q)
    (ladder : list Level) (k m : nat) (rk rm : Row) (c c' : Q) :
  positive ladder -> sorted s ladder -> (k < m)%nat ->
  nth_error (walk s amount ladder) k = Some rk ->
  nth_error (walk s amount ladder) m = Some rm ->
  currency_slippage rk = Some c -> currency_slippage rm = Some c' ->
  c' <= c /\
  exists d d', dollar_slippage rk = Some d /\ dollar_slippage rm = Some d' /\
               d' <= d.
Proof.
  intros Hpos Hs Hkm Hrk Hrm Hc Hc'.
  destruct (walk_row _ _ _ _ _ Hrk) as (x & Hx & ->).
  destruct (walk_row _ _ _ _ _ Hrm) as (y & Hy & ->).
  destruct (currency_some_row s amount ladder k x c Hpos Hx Hc)
    as (Hgt & _ & b & Hb & Hbpos & -> & Hd & _).
  destruct (currency_some_row s amount ladder m y c' Hpos Hy Hc')
    as (_ & _ & b' & Hb' & _ & -> & Hd' & _).
  assert (b' = b) by congruence. subst b'.
  replace m with (k + (m - k))%nat in Hy by lia.
  pose proof (slippage_quantity_mono s amount ladder Hpos Hs (m - k) k x y
                Hx Hy Hgt) as Hmono.
  replace (k + (m - k))%nat with m in Hmono by lia.
  split.
  - destruct s; cbn [adverse]; lra.
  - eexists. eexists. split; [exact Hd|]. split; [exact Hd'|].
    destruct s; cbn [adverse]; nra.
Qed.

Lemma first_row_has_largest_slippage_witness :
  exists c c',
    currency_slippage row_3_1 = Some c /\
    currency_slippage (row_at Ask cost_basis ladder_3 2 (mkLevel 7 false 1701 400))
      = Some c' /\
    c' <= c /\
    exists d d',
      dollar_slippage row_3_1 = Some d /\
      dollar_slippage (row_at Ask cost_basis ladder_3 2 (mkLevel 7 false 1701 400))
        = Some d' /\
      d' <= d.
Proof.
  eexists. eexists.
  split; [vm_compute; reflexivity|].
  split; [vm_compute; reflexivity|].
  apply (first_row_has_largest_slippage Ask cost_basis ladder_3 1 2).
  - exact positive_ladder_3.
  - exact sorted_ladder_3.
  - lia.
  - reflexivity.
  - reflexivity.
  - vm_compute. reflexivity.
  - vm_compute. reflexivity.
Defined.

(** ** The top of the book along the pipeline *)

(** Every row of a book with its columns carries, as its order price, the
    price of the first row of the window of its instant, and no level of
    that instant on that side stands before that first row. *)
Theorem book_row_top_of_book (s : Side) (amount : Q) (rows : list Level)
    (r : Row) :
  In r (with_columns s amount rows) ->
  exists x0 rest,
    window s (row_ts r) rows = x0 :: rest /\
    r_order_price_1 r =c= Some (price x0) /\
    forall y, In y rows -> exchangeTimestamp y = row_ts r ->
              before s x0 y = true.
Proof.
  intro Hr. destruct (In_with_columns _ _ _ _ Hr) as (i & x & Hn & E).
  pose proof (window_sorted s (row_ts r) rows) as Hs.
  assert (Hin : forall y, In y rows -> exchangeTimestamp y = row_ts r ->
                          In y (window s (row_ts r) rows)).
  { intros y H1 H2. apply In_window. auto. }
  remember (window s (row_ts r) rows) as w eqn:Hw.
  destruct w as [|x0 rest]; [destruct i; discriminate|].
  exists x0, rest. split; [reflexivity|].
  destruct (order_price_1_sorted s x0 rest Hs) as (b & Hb & Hbe).
  split.
  - rewrite E. cbn [row_at r_order_price_1]. rewrite Hb. exact Hbe.
  - intros y H1 H2. specialize (Hin y H1 H2).
    pose proof (sorted_head_before s x0 rest Hs) as Hall.
    rewrite Forall_forall in Hall. apply Hall. exact Hin.
Qed.

Lemma book_row_top_of_book_witness :
  In (row_at Bid cost_basis (window Bid 7 (book Bid trades_deep)) 1
        (mkLevel 7 true 999 5))
     (with_columns Bid cost_basis (book Bid trades_deep)) /\
  exists x0 rest,
    window Bid 7 (book Bid trades_deep) = x0 :: rest /\
    r_order_price_1
      (row_at Bid cost_basis (window Bid 7 (book Bid trades_deep)) 1
         (mkLevel 7 true 999 5)) =c= Some (price x0) /\
    forall y, In y (book Bid trades_deep) -> exchangeTimestamp y = 7%Z ->
              before Bid x0 y = true.
Proof.
  assert (Hin : In (row_at Bid cost_basis (window Bid 7 (book Bid trades_deep)) 1
                      (mkLevel 7 true 999 5))
                   (with_columns Bid cost_basis (book Bid trades_deep))).
  { apply nth_error_In with 1%nat. reflexivity. }
  split; [exact Hin|].
  exact (book_row_top_of_book Bid cost_basis (book Bid trades_deep) _ Hin).
Defined.

(** ** What the aggregation reports *)


Lemma first_ignorenulls_some (vs : list col) (v : Q) :
  In (Some v) vs -> Col.first_ignorenulls vs <> None.
Proof.
  induction vs as [|[w|] tl IH]; cbn; intro H.
  - contradiction.
  - discriminate.
  - destruct H as [H | H]; [discriminate | apply IH; exact H].
Qed.


Lemma walk_with_columns (s : Side) (amount : Q) (rows : list Level)
    (t : Z) (r : Row) :
  In r (walk s amount (window s t rows)) ->
  In r (with_columns s amount rows) /\ row_ts r = t.
Proof.
  intro H. destruct (In_walk _ _ _ _ H) as (i & x & Hn & E).
  assert (Hx : In x (window s t rows)) by (eapply nth_error_In; exact Hn).
  apply In_window in Hx. destruct Hx as [Hx Ht].
  split.
  - unfold with_columns. apply in_flat_map. exists t. split; [|exact H].
    unfold timestamps. apply nodup_In. apply in_map_iff. exists x. auto.
  - rewrite E. unfold row_ts. cbn [level row_at]. exact Ht.
Qed.

Lemma combined_metric_agg (s : Side) (m : Metric) (t : Z) (g : list (Row * Row)) :
  combined_metric s m (agg t g)
  = Col.first_ignorenulls (map (fun p => row_metric m (pick s p)) g).
Proof. destruct s, m; reflexivity. Qed.



(** A metric carried by a row of the walked ladder of a joined instant
    makes the aggregation of that instant non-null. *)
Lemma agg_metric_present (amount : Q) (trades : list Level) (t : Z)
    (s : Side) (m : Metric) (p0 : Row * Row) (r : Row) (v : Q) :
  In p0 (join (bid_book amount trades) (ask_book amount trades)) ->
  row_ts (fst p0) = t ->
  In r (walk s amount (window s t (book s trades))) ->
  row_metric m r = Some v ->
  Col.first_ignorenulls
    (map (fun p => row_metric m (pick s p))
         (group t (join (bid_book amount trades) (ask_book amount trades))))
  <> None.
Proof.
  intros Hp0 Hp0t Hr E.
  apply walk_with_columns in Hr. destruct Hr as [Hr Hrt].
  destruct p0 as [b0 a0]. cbn [fst] in Hp0t.
  pose proof Hp0 as Hj. apply In_join in Hj. destruct Hj as (Hb0 & Ha0 & Hta).
  set (p := match s with Bid => (r, a0) | Ask => (b0, r) end).
  assert (Hp : In p (group t (join (bid_book amount trades)
                                   (ask_book amount trades)))).
  { unfold group. apply filter_In. unfold p. destruct s; cbn [fst]; split.
    - apply In_join. repeat split; auto. congruence.
    - apply Z.eqb_eq. exact Hrt.
    - apply In_join. repeat split; auto. congruence.
    - apply Z.eqb_eq. exact Hp0t. }
  apply (first_ignorenulls_some _ v). apply in_map_iff. exists p.
  split; [|exact Hp]. unfold p. destruct s; cbn [pick fst snd]; exact E.
Qed.



(** ** An instant with depth on both sides *)

Lemma exists_filled_row (s : Side) (amount : Q) (ladder : list Level) :
  positive ladder -> 0 < amount -> amount < total_cost ladder ->
  exists r, In r (walk s amount ladder) /\ filled r.
Proof.
  intros Hpos Ha Htot.
  destruct (first_over amount ladder (length ladder))
    as [(i & Hi & Hgt & Hmin) | Hall].
  - destruct (nth_error ladder i) as [x|] eqn:Hn;
      [|apply nth_error_None in Hn; lia].
    exists (row_at s amount ladder i x). split.
    + apply nth_error_In with i. rewrite nth_error_walk, Hn. reflexivity.
    + assert (Hbefore : cum_cost_before ladder i <= amount).
      { destruct i as [|i]; cbn [cum_cost_before]; [lra | apply Hmin; lia]. }
      eapply filled_row; eauto.
      pose proof (slippage_quantity_positive amount ladder i x Hpos Ha Hn Hbefore).
      lra.
  - exfalso. destruct ladder as [|x tl].
    + unfold total_cost in Htot. cbn in Htot. lra.
    + rewrite <- (cum_cost_last (x :: tl) (length tl) eq_refl) in Htot.
      assert (cum_cost (x :: tl) (length tl) <= amount).
      { apply Hall. cbn [length]. lia. }
      lra.
Qed.

(** An instant whose bid ladder and ask ladder both have positive levels and
    a total cost above a positive notional is reported, with all six metrics
    present. *)
Theorem deep_instant_fully_reported (amount : Q) (trades : list Level) (t : Z) :
  0 < amount ->
  (forall s, positive (window s t (book s trades)) /\
             amount < total_cost (window s t (book s trades))) ->
  exists c,
    In c (orderbook amount trades) /\ c_timestamp c = t /\
    forall s m, combined_metric s m c <> None.
Proof.
  intros Ha Hdeep.
  destruct (Hdeep Bid) as [Hpb Htb]. destruct (Hdeep Ask) as [Hpa Hta].
  destruct (exists_filled_row Bid amount _ Hpb Ha Htb) as (rb & Hrb & Hfb).
  destruct (exists_filled_row Ask amount _ Hpa Ha Hta) as (ra & Hra & Hfa).
  destruct (walk_with_columns _ _ _ _ _ Hrb) as [Hinb Htsb].
  destruct (walk_with_columns _ _ _ _ _ Hra) as [Hina Htsa].
  assert (Hj : In (rb, ra) (join (bid_book amount trades) (ask_book amount trades))).
  { apply In_join. repeat split; auto. congruence. }
  exists (agg t (group t (join (bid_book amount trades) (ask_book amount trades)))).
  split; [|split; [reflexivity|]].
  - unfold orderbook. cbn zeta.
    apply (in_map (fun t => agg t (group t _))).
    apply nodup_In. apply in_map_iff. exists (rb, ra). split; [exact Htsb | exact Hj].
  - intros s m. rewrite combined_metric_agg.
    assert (Hrow : exists r v,
              In r (walk s amount (window s t (book s trades))) /\
              row_metric m r = Some v).
    { destruct s.
      - exists rb. destruct Hfb as (H1 & H2 & H3).
        destruct m; cbn [row_metric];
          [destruct (currency_slippage rb) as [v|]
          |destruct (dollar_slippage rb) as [v|]
          |destruct (percent_slippage rb) as [v|]];
          try congruence; exists v; auto.
      - exists ra. destruct Hfa as (H1 & H2 & H3).
        destruct m; cbn [row_metric];
          [destruct (currency_slippage ra) as [v|]
          |destruct (dollar_slippage ra) as [v|]
          |destruct (percent_slippage ra) as [v|]];
          try congruence; exists v; auto. }
    destruct Hrow as (r & v & Hr & Hv).
    apply (agg_metric_present amount trades t s m (rb, ra) r v); auto.
Qed.

Lemma deep_instant_fully_reported_witness :
  exists c,
    In c (orderbook cost_basis trades_deep) /\ c_timestamp c = 7%Z /\
    forall s m, combined_metric s m c <> None.
Proof.
  apply (deep_instant_fully_reported cost_basis trades_deep 7).
  - reflexivity.
  - intros [|].
    + change (window Bid 7 (book Bid trades_deep))
        with [mkLevel 7 true 1000 2000; mkLevel 7 true 999 5].
      split; [repeat constructor; cbn; reflexivity | reflexivity].
    + change (window Ask 7 (book Ask trades_deep))
        with [mkLevel 7 false 1001 2000].
      split; [repeat constructor; cbn; reflexivity | reflexivity].
Defined.

(** ** The size of the join *)

Lemma filter_all (A : Type) (P : A -> bool) (l : list A) :
  (forall x, In x l -> P x = true) -> filter P l = l.
Proof.
  induction l as [|x tl IH]; intro H; cbn; [reflexivity|].
  rewrite (H x (or_introl eq_refl)). f_equal. apply IH.
  intros y Hy. apply H. right. exact Hy.
Qed.

Lemma filter_none (A : Type) (P : A -> bool) (l : list A) :
  (forall x, In x l -> P x = false) -> filter P l = [].
Proof.
  induction l as [|x tl IH]; intro H; cbn; [reflexivity|].
  rewrite (H x (or_introl eq_refl)). apply IH.
  intros y Hy. apply H. right. exact Hy.
Qed.

Lemma filter_flat_map_key (f : Z -> list Row) (ks : list Z) (t : Z) :
  NoDup ks -> (forall k r, In r (f k) -> row_ts r = k) ->
  filter (fun r => Z.eqb (row_ts r) t) (flat_map f ks)
  = if in_dec Z.eq_dec t ks then f t else [].
Proof.
  intros Hnd Hkey. induction Hnd as [|k ks Hk Hnd IH]; [reflexivity|].
  cbn [flat_map]. rewrite filter_app, IH.
  destruct (Z.eq_dec k t) as [-> | Hne].
  - rewrite filter_all.
    + destruct (in_dec Z.eq_dec t ks) as [Hin | _]; [contradiction|].
      destruct (in_dec Z.eq_dec t (t :: ks)) as [_ | Hout].
      * apply app_nil_r.
      * exfalso. apply Hout. left. reflexivity.
    + intros r Hr. apply Z.eqb_eq. apply Hkey. exact Hr.
  - rewrite filter_none.
    + cbn [app]. destruct (in_dec Z.eq_dec t ks) as [Hin | Hout];
        destruct (in_dec Z.eq_dec t (k :: ks)) as [Hin' | Hout'];
        try reflexivity.
      * exfalso. apply Hout'. right. exact Hin.
      * exfalso. destruct Hin' as [H | H]; [congruence | contradiction].
    + intros r Hr. apply Z.eqb_neq. rewrite (Hkey k r Hr). exact Hne.
Qed.

(** The rows of a book with its columns at one instant are the walk of the
    window of that instant. *)
Lemma with_columns_at (s : Side) (amount : Q) (rows : list Level) (t : Z) :
  filter (fun r => Z.eqb (row_ts r) t) (with_columns s amount rows)
  = walk s amount (window s t rows).
Proof.
  unfold with_columns. rewrite filter_flat_map_key.
  - destruct (in_dec Z.eq_dec t (timestamps rows)) as [_ | Hout];
      [reflexivity|].
    destruct (window s t rows) as [|x tl] eqn:E; [reflexivity|].
    exfalso. apply Hout. unfold timestamps. apply nodup_In.
    assert (Hx : In x (window s t rows)) by (rewrite E; left; reflexivity).
    apply In_window in Hx. destruct Hx as [Hx Ht].
    apply in_map_iff. exists x. auto.
  - apply NoDup_nodup.
  - intros k r Hr. apply (walk_with_columns s amount rows k r Hr).
Qed.

Lemma length_rows_from (s : Side) (amount : Q) (ladder rest : list Level) :
  forall k, length (rows_from s amount ladder k rest) = length rest.
Proof.
  induction rest as [|x tl IH]; intro k; cbn; [reflexivity|].
  rewrite IH. reflexivity.
Qed.

Lemma length_window (s : Side) (t : Z) (trades : list Level) :
  length (window s t (book s trades))
  = length (filter (fun x => on_side s x && Z.eqb (exchangeTimestamp x) t) trades).
Proof.
  unfold window, timestampWindow, book. rewrite filter_twice.
  apply Permutation_length. apply order_by_perm.
Qed.

Lemma length_group_join (bids asks : list Row) (t : Z) :
  length (group t (join bids asks))
  = (length (filter (fun r => Z.eqb (row_ts r) t) bids)
     * length (filter (fun r => Z.eqb (row_ts r) t) asks))%nat.
Proof.
  unfold group, join. induction bids as [|b tl IH]; [reflexivity|].
  cbn [flat_map filter]. rewrite filter_app, length_app, IH.
  destruct (Z.eqb (row_ts b) t) eqn:E.
  - rewrite filter_all.
    + rewrite length_map. apply Z.eqb_eq in E. rewrite E. cbn [length]. lia.
    + intros p Hp. apply in_map_iff in Hp. destruct Hp as (a & <- & _).
      exact E.
  - rewrite filter_none.
    + reflexivity.
    + intros p Hp. apply in_map_iff in Hp. destruct Hp as (a & <- & _).
      exact E.
Qed.

(** The books are joined row by row: the joined rows of an instant are all
    the pairs of a bid row and an ask row of that instant, as many as the
    number of bid levels times the number of ask levels of the instant in
    [trades]. *)
Theorem join_is_cross_product (amount : Q) (trades : list Level) (t : Z) :
  length (group t (join (bid_book amount trades) (ask_book amount trades)))
  = (length (filter (fun x => on_side Bid x && Z.eqb (exchangeTimestamp x) t)
               trades)
     * length (filter (fun x => on_side Ask x && Z.eqb (exchangeTimestamp x) t)
                 trades))%nat.
Proof.
  rewrite length_group_join. unfold bid_book, ask_book.
  rewrite !with_columns_at. unfold walk. rewrite !length_rows_from.
  rewrite !length_window. reflexivity.
Qed.

(** ** A bound on the percent slippage *)

(** At the first row past the notional of a sorted ladder of positive levels
    the percent slippage is at most the relative distance between the price
    of that row and the top of the book: [price / best - 1] for a buy,
    [1 - price / best] for a sell. *)
Theorem percent_slippage_within_price_gap (s : Side) (amount : Q) (x0 : Level)
    (rest : list Level) (i : nat) (r : Row) :
  positive (x0 :: rest) -> sorted s (x0 :: rest) -> 0 < amount ->
  nth_error (walk s amount (x0 :: rest)) i = Some r ->
  amount < cum_cost (x0 :: rest) i ->
  cum_cost_before (x0 :: rest) i <= amount ->
  exists p,
    percent_slippage r = Some p /\
    p <= adverse s (price (level r) / price x0 - 1).
Proof.
  intros Hpos Hs Ha Hr Hgt Hbefore.
  set (ladder := x0 :: rest) in *.
  destruct (walk_row _ _ _ _ _ Hr) as (x & Hn & ->).
  cbn [level row_at].
  destruct (positive_nth _ _ _ Hpos Hn) as [Hp Hq].
  assert (Hp0 : ~ price x == 0) by lra.
  assert (Hp00 : 0 < price x0).
  { apply (positive_nth ladder 0 x0 Hpos). reflexivity. }
  destruct (order_price_1_sorted s x0 rest Hs) as (b & Hb & Hbe).
  fold ladder in Hb.
  assert (Hbpos : 0 < b) by lra.
  assert (Hb0 : ~ b == 0) by lra.
  pose proof (slippage_quantity_positive amount ladder i x Hpos Ha Hn Hbefore)
    as Hvpos.
  pose proof (row_at_gt s amount ladder i x Hgt Hp0) as Hslip.
  pose proof (slippage_quantity_before amount ladder i x Hn Hp0) as Hv.
  set (v := slippage_quantity amount ladder i x) in *.
  assert (Hv0 : ~ v == 0) by lra.
  destruct (row_at_metrics s amount ladder i x b v Hb Hb0 Hslip Hv0)
    as (_ & _ & _ & Hpct).
  exists (adverse s (amount / b / v - 1)). split; [exact Hpct|].
  set (t := (amount - cum_cost_before ladder i) / price x) in *.
  assert (Ht : t * price x == amount - cum_cost_before ladder i).
  { unfold t. field. exact Hp0. }
  pose proof (cost_vs_row s ladder i x Hpos Hs Hn) as Hrow.
  set (u := amount / b / v).
  set (w := price x / price x0).
  assert (Hu : u * (v * b) == amount) by (unfold u; field; auto).
  assert (Hw : w * price x0 == price x) by (unfold w; field; lra).
  assert (Hvb : 0 < v * b) by nra.
  assert (Hvx : v * price x == price x * cum_quantity_before ladder i
                             + amount - cum_cost_before ladder i).
  { rewrite Hv. nra. }
  assert (Hwvb : w * (v * b) == v * price x).
  { rewrite Hbe. rewrite <- Hw. ring. }
  destruct s; cbn [adverse]; cbn in Hrow.
  - assert (w <= u).
    { apply Qnot_lt_le. intro Hlt.
      assert (u * (v * b) < w * (v * b)) by nra. lra. }
    lra.
  - assert (u <= w).
    { apply Qnot_lt_le. intro Hlt.
      assert (w * (v * b) < u * (v * b)) by nra. lra. }
    lra.
Qed.

Lemma percent_slippage_within_price_gap_witness :
  exists p,
    percent_slippage row_3_1 = Some p /\
    p <= adverse Ask (price (level row_3_1) / 1700 - 1).
Proof.
  apply (percent_slippage_within_price_gap Ask cost_basis
           (mkLevel 7 false 1700 400)
           [mkLevel 7 false (17005 # 10) 400; mkLevel 7 false 1701 400] 1).
  - exact positive_ladder_3.
  - exact sorted_ladder_3.
  - reflexivity.
  - reflexivity.
  - reflexivity.
  - vm_compute. discriminate.
Defined.
